(** * Platter backend: the user and recipe models of [Backend/db.py]

    A shallow embedding of the methods of [User] and [Recipe], with the
    properties of password storage, session renewal, token verification
    and serialization that the specification states about them.

    Python values that the methods handle dynamically are a small
    inductive type [value]; a method that can raise returns a [result];
    the two ambient effects, the wall clock read by
    [datetime.datetime.now()] and the entropy read by [os.urandom], are
    threaded through a state-and-error monad [M] over a [World]; a
    method that assigns to [self] runs in [User.Method], which carries
    the object along with the world. *)

From Stdlib Require Import ZArith Lia Ascii String.
From Stdlib.Strings Require Import Byte.
From stdpp Require Import base gmap strings list.

Set Warnings "-register-all".
Local Open Scope Z_scope.

(** ** Bytes *)

Abbreviation bytes := (list Byte.byte).

#[global] Instance byte_eq_decision : EqDecision Byte.byte := Byte.byte_eq_dec.

Definition Z_of_byte (b : Byte.byte) : Z := Z.of_N (Byte.to_N b).

Definition byte_of_Z (z : Z) : Byte.byte :=
  match Byte.of_N (Z.to_N (z mod 256)) with
  | Some b => b
  | None => Byte.x00
  end.

(** [n] bytes of [z], most significant first. *)
Fixpoint be_bytes (n : nat) (z : Z) : bytes :=
  match n with
  | O => []
  | S n' => byte_of_Z (Z.shiftr z (8 * Z.of_nat n')) :: be_bytes n' z
  end.

Definition hexdigit (n : Z) : ascii :=
  match String.get (Z.to_nat n) "0123456789abcdef" with
  | Some c => c
  | None => "0"%char
  end.

(** [bytes.hex()]: two lowercase hexadecimal digits per byte. *)
Fixpoint hex (bs : bytes) : string :=
  match bs with
  | [] => EmptyString
  | b :: rest =>
      String (hexdigit (Z_of_byte b / 16))
        (String (hexdigit (Z_of_byte b mod 16)) (hex rest))
  end.

(** ** [hashlib.sha1], as FIPS 180-4 defines SHA-1 *)

Module Sha1.

Definition w32 (x : Z) : Z := x mod 2 ^ 32.

Definition rotl (n x : Z) : Z :=
  w32 (Z.lor (Z.shiftl x n) (Z.shiftr x (32 - n))).

(** Padding: a 1 bit, zeros up to 56 mod 64 bytes, the bit length on
    eight bytes. *)
Definition pad (m : bytes) : bytes :=
  let l := Z.of_nat (length m) in
  m ++ [Byte.x80] ++ repeat Byte.x00 (Z.to_nat ((55 - l) mod 64))
    ++ be_bytes 8 (8 * l).

Fixpoint be_words (bs : bytes) : list Z :=
  match bs with
  | b0 :: b1 :: b2 :: b3 :: rest =>
      Z.lor (Z.shiftl (Z_of_byte b0) 24)
        (Z.lor (Z.shiftl (Z_of_byte b1) 16)
           (Z.lor (Z.shiftl (Z_of_byte b2) 8) (Z_of_byte b3)))
      :: be_words rest
  | _ => []
  end.

Fixpoint blocks (n : nat) (bs : bytes) : list bytes :=
  match n with
  | O => []
  | S n' => take 64 bs :: blocks n' (drop 64 bs)
  end.

(** The message schedule: [w] holds W_0 .. W_(t-1); [n] more words
    are appended. *)
Fixpoint schedule (n : nat) (w : list Z) : list Z :=
  match n with
  | O => w
  | S n' =>
      let t := length w in
      let at_ (i : nat) := nth (t - i) w 0 in
      schedule n'
        (w ++ [rotl 1 (Z.lxor (Z.lxor (at_ 3%nat) (at_ 8%nat))
                         (Z.lxor (at_ 14%nat) (at_ 16%nat)))])
  end.

Record state := State { h0 : Z; h1 : Z; h2 : Z; h3 : Z; h4 : Z }.

Definition init : state :=
  State 0x67452301 0xEFCDAB89 0x98BADCFE 0x10325476 0xC3D2E1F0.

Definition f (t : nat) (b c d : Z) : Z :=
  if (t <? 20)%nat then Z.lor (Z.land b c) (Z.land (Z.lnot b) d)
  else if (t <? 40)%nat then Z.lxor (Z.lxor b c) d
  else if (t <? 60)%nat then
    Z.lor (Z.lor (Z.land b c) (Z.land b d)) (Z.land c d)
  else Z.lxor (Z.lxor b c) d.

Definition k (t : nat) : Z :=
  if (t <? 20)%nat then 0x5A827999
  else if (t <? 40)%nat then 0x6ED9EBA1
  else if (t <? 60)%nat then 0x8F1BBCDC
  else 0xCA62C1D6.

Definition round (s : state) (tw : nat * Z) : state :=
  let (t, w) := tw in
  State (w32 (rotl 5 (h0 s) + f t (h1 s) (h2 s) (h3 s) + h4 s + k t + w))
    (h0 s) (rotl 30 (h1 s)) (h2 s) (h3 s).

Definition compress (h : state) (block : bytes) : state :=
  let w := schedule 64 (be_words block) in
  let s := fold_left round (combine (seq 0 80) w) h in
  State (w32 (h0 h + h0 s)) (w32 (h1 h + h1 s)) (w32 (h2 h + h2 s))
    (w32 (h3 h + h3 s)) (w32 (h4 h + h4 s)).

Definition digest (m : bytes) : bytes :=
  let p := pad m in
  let s := fold_left compress (blocks (length p / 64) p) init in
  be_bytes 4 (h0 s) ++ be_bytes 4 (h1 s) ++ be_bytes 4 (h2 s)
    ++ be_bytes 4 (h3 s) ++ be_bytes 4 (h4 s).

Definition hexdigest (m : bytes) : string := hex (digest m).

End Sha1.

(** ** Python values, exceptions and the ambient effects *)

(** A [str] is held as the bytes of its code points, each written in
    the scheme of UTF-8, a surrogate code point (U+D800 to U+DFFF)
    included, on its three bytes ED A0..BF 80..BF: what Python calls
    [surrogatepass]. The writing is one to one, so [==] on two [str] is
    equality of the strings; a [str] without surrogates is held as its
    UTF-8 bytes, and [str.encode("utf8")], which refuses surrogates,
    succeeds exactly when the bytes are well-formed UTF-8. *)
Inductive value : Type :=
| VNone
| VBool (b : bool)
| VInt (z : Z)
| VStr (s : string)
| VBytes (b : bytes)
| VList (l : list value)
| VTuple (l : list value)
| VDict (d : list (string * value)).

(** The exception classes the methods can meet. [ValidationError] is the
    class the specification names for rejected creation requests; no
    statement of [db.py] raises it. *)
Inductive exn : Type :=
| TypeError
| AttributeError
| ValueError
| OverflowError
| UnicodeDecodeError
| UnicodeEncodeError
| ValidationError.

Inductive result (A : Type) : Type :=
| Ok (a : A)
| Raise (e : exn).
Arguments Ok {A} a.
Arguments Raise {A} e.

#[global] Instance result_ret : MRet result := fun A a => Ok a.
#[global] Instance result_bind : MBind result := fun A B f r =>
  match r with
  | Ok a => f a
  | Raise e => Raise e
  end.

(** [[f(x) for x in xs]]: elements in order, the first exception wins. *)
Fixpoint comprehension {A B : Type} (f : A -> result B) (xs : list A)
  : result (list B) :=
  match xs with
  | [] => Ok []
  | x :: rest =>
      y ← f x; ys ← comprehension f rest; mret (y :: ys)
  end.

(** A naive [datetime] is its count of microseconds since
    [datetime.min], the first instant of the year 1, on the local time
    line; [timedelta(days=1)] is then a day of microseconds. *)
Definition datetime := Z.
Definition timedelta_days (d : Z) : Z := d * 86400 * 1000000.

(** [datetime.max], the last microsecond of the year 9999: day
    3652059 of the calendar ends there. *)
Definition datetime_max : datetime := 3652059 * 86400 * 1000000 - 1.

Definition datetime_ok (d : Z) : bool := (0 <=? d) && (d <=? datetime_max).

(** [d + delta]: a sum outside the range of [datetime] raises
    [OverflowError]. *)
Definition datetime_add (d : datetime) (delta : Z) : result datetime :=
  if datetime_ok (d + delta) then Ok (d + delta) else Raise OverflowError.

(** The world outside the process: what [datetime.datetime.now()]
    returns, and the tape of bytes [os.urandom] hands out, with the
    number of bytes drawn so far. *)
Record World := mkWorld {
  clock : datetime;
  entropy : nat -> Byte.byte;
  drawn : nat
}.

Definition set_clock (t : datetime) (w : World) : World :=
  mkWorld t (entropy w) (drawn w).

Definition M (A : Type) : Type := World -> result A * World.

#[global] Instance M_ret : MRet M := fun A a w => (Ok a, w).
#[global] Instance M_bind : MBind M := fun A B f m w =>
  match m w with
  | (Ok a, w') => f a w'
  | (Raise e, w') => (Raise e, w')
  end.

Definition raise {A : Type} (e : exn) : M A := fun w => (Raise e, w).

Definition lift {A : Type} (r : result A) : M A := fun w => (r, w).

Definition datetime_now : M datetime := fun w => (Ok (clock w), w).

(** The next [n] bytes of the tape, and the world once they are drawn. *)
Definition draw (w : World) (n : nat) : bytes :=
  map (fun i => entropy w (i + drawn w)%nat) (seq 0 n).

Definition advance (n : nat) (w : World) : World :=
  mkWorld (clock w) (entropy w) (n + drawn w)%nat.

Definition os_urandom (n : nat) : M bytes := fun w =>
  (Ok (draw w n), advance n w).

(** *** Methods of [str] and [bytes] *)

Definition str_bytes (s : string) : bytes :=
  map byte_of_ascii (String.list_ascii_of_string s).

Definition bytes_str (b : bytes) : string :=
  String.string_of_list_ascii (map ascii_of_byte b).

Definition in_range (lo hi : Z) (b : Byte.byte) : bool :=
  (lo <=? Z_of_byte b) && (Z_of_byte b <=? hi).

(** Well-formed UTF-8 (RFC 3629, section 4). *)
Fixpoint utf8_valid (bs : bytes) : bool :=
  match bs with
  | [] => true
  | b0 :: rest0 =>
      if in_range 0x00 0x7F b0 then utf8_valid rest0
      else match rest0 with
      | [] => false
      | b1 :: rest1 =>
          if in_range 0xC2 0xDF b0 then in_range 0x80 0xBF b1 && utf8_valid rest1
          else match rest1 with
          | [] => false
          | b2 :: rest2 =>
              if in_range 0xE0 0xEF b0 then
                (if in_range 0xE0 0xE0 b0 then in_range 0xA0 0xBF b1
                 else if in_range 0xED 0xED b0 then in_range 0x80 0x9F b1
                 else in_range 0x80 0xBF b1)
                && in_range 0x80 0xBF b2 && utf8_valid rest2
              else match rest2 with
              | [] => false
              | b3 :: rest3 =>
                  in_range 0xF0 0xF4 b0
                  && (if in_range 0xF0 0xF0 b0 then in_range 0x90 0xBF b1
                      else if in_range 0xF4 0xF4 b0 then in_range 0x80 0x8F b1
                      else in_range 0x80 0xBF b1)
                  && in_range 0x80 0xBF b2 && in_range 0x80 0xBF b3
                  && utf8_valid rest3
              end
          end
      end
  end.

(** [v.encode("utf8")]: only [str] has the method, and it refuses a
    [str] that holds a surrogate. *)
Definition encode_utf8 (v : value) : result value :=
  match v with
  | VStr s =>
      if utf8_valid (str_bytes s) then Ok (VBytes (str_bytes s))
      else Raise UnicodeEncodeError
  | _ => Raise AttributeError
  end.

(** [v.decode("utf8")]: only [bytes] has the method. *)
Definition decode_utf8 (v : value) : result value :=
  match v with
  | VBytes b =>
      if utf8_valid b then Ok (VStr (bytes_str b)) else Raise UnicodeDecodeError
  | _ => Raise AttributeError
  end.

(** [v == s] for a [str] [s]: no other value of [value] equals a [str]. *)
Definition eq_str (v : value) (s : string) : bool :=
  match v with
  | VStr t => String.eqb t s
  | _ => false
  end.

(** [a and b] where [a] is a [bool]: [b] is evaluated only when [a] is
    true, and [a] itself is the result otherwise. *)
Definition and_then (a : bool) (b : M bool) : M bool :=
  if a then b else mret a.

(** [s.split(sep)] for a one-character separator: every occurrence
    splits, empty pieces are kept. *)
Fixpoint split_on (sep : ascii) (s : string) : list string :=
  match s with
  | EmptyString => [EmptyString]
  | String c rest =>
      if Ascii.eqb c sep then EmptyString :: split_on sep rest
      else match split_on sep rest with
           | piece :: pieces => String c piece :: pieces
           | [] => [String c EmptyString]
           end
  end.

Definition newline : ascii := ascii_of_nat 10.

(** [sep.join(pieces)]. *)
Fixpoint join_on (sep : ascii) (pieces : list string) : string :=
  match pieces with
  | [] => EmptyString
  | [piece] => piece
  | piece :: rest => String.append piece (String sep (join_on sep rest))
  end.

(** ** The [bcrypt] package

    The hash itself is a parameter: [bcrypt_hash password salt] is the
    digest, or [None] where the library rejects the salt, and
    [bcrypt_salt rounds raw] formats sixteen random bytes as a salt.
    What the package's functions do with their arguments is written
    out: both take positional arguments, and refuse anything but
    [bytes]. *)
Class Bcrypt := {
  bcrypt_hash : bytes -> bytes -> option bytes;
  bcrypt_salt : Z -> bytes -> bytes
}.

Module bcrypt.
Section Package.
Context `{Bcrypt}.

(** [bcrypt.hashpw(password, salt)]. *)
Definition hashpw (args : list value) : result value :=
  match args with
  | [password; salt] =>
      match password, salt with
      | VBytes p, VBytes s =>
          match bcrypt_hash p s with
          | Some h => Ok (VBytes h)
          | None => Raise ValueError
          end
      | _, _ => Raise TypeError
      end
  | _ => Raise TypeError
  end.

(** [bcrypt.gensalt(rounds=...)]. *)
Definition gensalt (rounds : Z) : M value :=
  if (rounds <? 4) || (31 <? rounds) then raise ValueError
  else raw ← os_urandom 16; mret (VBytes (bcrypt_salt rounds raw)).

(** [bcrypt.checkpw(password, hashed_password)]: the password is
    hashed again under the salt the stored digest starts with. *)
Definition checkpw (args : list value) : result value :=
  match args with
  | [password; hashed_password] =>
      match password, hashed_password with
      | VBytes p, VBytes h =>
          match bcrypt_hash p h with
          | Some h' => Ok (VBool (bool_decide (h' = h)))
          | None => Raise ValueError
          end
      | _, _ => Raise TypeError
      end
  | _ => Raise TypeError
  end.
End Package.
End bcrypt.

(** [kwargs.get(key)]. *)
Definition kwargs_get (kwargs : gmap string value) (key : string) : value :=
  default VNone (kwargs !! key).

(** ** [class Post]: columns only, no method. *)
Module Post.
Record t := mk { id : value; title : value; description : value }.

(** [post.serialize()]: the class defines no [serialize], and neither
    does its base, so the attribute lookup fails. *)
Definition serialize (self : t) : result value := Raise AttributeError.
End Post.

(** ** [class Recipe] *)
Module Recipe.
Record t := mk {
  id : value;
  title : value;
  summary : value;
  ingredients : value;
  instructions : value;
  image_url : value
}.

(** [x if isinstance(x, list) else x.split('\n')]. *)
Definition as_list (x : value) : result value :=
  match x with
  | VList l => Ok (VList l)
  | VStr s => Ok (VList (map VStr (split_on newline s)))
  | VBytes _ => Raise TypeError
  | _ => Raise AttributeError
  end.

Definition serialize (self : t) : result value :=
  ingredients' ← as_list (ingredients self);
  instructions' ← as_list (instructions self);
  mret (VDict [("id", id self);
               ("title", title self);
               ("summary", summary self);
               ("ingredients", ingredients');
               ("instructions", instructions')]).

(** A new instance before [__init__] has run: no column is set. *)
Definition blank : t := mk VNone VNone VNone VNone VNone VNone.

(** [__init__] assigns the four content columns from [kwargs] and
    nothing else. *)
Definition __init__ (kwargs : gmap string value) : t :=
  mk (id blank)
    (kwargs_get kwargs "title")
    (kwargs_get kwargs "summary")
    (kwargs_get kwargs "ingredients")
    (kwargs_get kwargs "instructions")
    (image_url blank).
End Recipe.

(** ** [class SavedRecipe] *)
Module SavedRecipe.
Record t := mk { id : value; recipe : option Recipe.t }.

(** [saved.recipe.serialize()]; an unset relationship is [None]. *)
Definition recipe_serialize (saved : t) : result value :=
  match recipe saved with
  | Some r => Recipe.serialize r
  | None => Raise AttributeError
  end.
End SavedRecipe.

(** ** [class User] *)
Module User.
Record t := mk {
  id : value;
  first_name : value;
  last_name : value;
  username : value;
  password_digest : value;
  image_url : value;
  session_token : string;
  session_expiration : datetime;
  update_token : string;
  saved_recipes : list SavedRecipe.t;
  posts : list Post.t
}.

(** A new instance before [__init__] has run: no column is set and no
    row is related. The session columns are written by
    [renew_session] before [__init__] returns. *)
Definition blank : t :=
  mk VNone VNone VNone VNone VNone VNone "" 0 "" [] [].

Definition set_names (fn ln un : value) (self : t) : t :=
  mk (id self) fn ln un (password_digest self) (image_url self)
    (session_token self) (session_expiration self) (update_token self)
    (saved_recipes self) (posts self).

Definition set_password_digest (d : value) (self : t) : t :=
  mk (id self) (first_name self) (last_name self) (username self) d
    (image_url self) (session_token self) (session_expiration self)
    (update_token self) (saved_recipes self) (posts self).

Definition set_session (st : string) (exp : datetime) (ut : string)
    (self : t) : t :=
  mk (id self) (first_name self) (last_name self) (username self)
    (password_digest self) (image_url self) st exp ut
    (saved_recipes self) (posts self).

(** [hashlib.sha1(os.urandom(64)).hexdigest()] *)
Definition _urlsafe_base_64 : M string :=
  raw ← os_urandom 64; mret (Sha1.hexdigest raw).

(** A method runs against [self] and the world, and may assign to
    [self]; when it raises, both stay as the statements before the
    raise left them. *)
Definition Method (A : Type) : Type := t * World -> result A * (t * World).

#[global] Instance Method_ret : MRet Method := fun A a s => (Ok a, s).
#[global] Instance Method_bind : MBind Method := fun A B f m s =>
  match m s with
  | (Ok a, s') => f a s'
  | (Raise e, s') => (Raise e, s')
  end.

(** A computation that does not touch [self]. *)
Definition in_world {A : Type} (m : M A) : Method A := fun s =>
  match m (snd s) with
  | (r, w') => (r, (fst s, w'))
  end.

(** [self.attr = ...], for the three session columns. *)
Definition assign (f : t -> t) : Method unit := fun s =>
  (Ok tt, (f (fst s), snd s)).

Definition set_session_token (st : string) (self : t) : t :=
  set_session st (session_expiration self) (update_token self) self.

Definition set_session_expiration (exp : datetime) (self : t) : t :=
  set_session (session_token self) exp (update_token self) self.

Definition set_update_token (ut : string) (self : t) : t :=
  set_session (session_token self) (session_expiration self) ut self.

(** Calling a method on an object from outside: the object as the
    method left it comes back when the method returns; when it raises,
    the exception passes to the caller. *)
Definition call {A : Type} (m : Method A) (self : t) : M (t * A) := fun w =>
  match m (self, w) with
  | (Ok a, (self', w')) => (Ok (self', a), w')
  | (Raise e, (_, w')) => (Raise e, w')
  end.

(** Lines 62 to 64. Each assignment takes effect as it runs: when the
    sum on line 63 is past [datetime.max] and raises, the session
    token of line 62 is already stored and line 64 has not run. *)
Definition renew_session : Method unit :=
  st ← in_world _urlsafe_base_64;
  _ ← assign (set_session_token st);
  now ← in_world datetime_now;
  expiration ← in_world (lift (datetime_add now (timedelta_days 1)));
  _ ← assign (set_session_expiration expiration);
  ut ← in_world _urlsafe_base_64;
  assign (set_update_token ut).

(** Lines 43 to 45 of [__init__]. *)
Definition init_names (kwargs : gmap string value) (self : t) : t :=
  set_names (kwargs_get kwargs "first_name")
    (kwargs_get kwargs "last_name")
    (kwargs_get kwargs "username") self.

(** The right-hand side of line 46, a pair:
    [bcrypt.hashpw(kwargs.get("password_digest")).encode("utf8")]
    and [bcrypt.gensalt(rounds=13).decode("utf8")]. *)
Definition init_digest `{Bcrypt} (kwargs : gmap string value) : M value :=
  hashed ← lift (bcrypt.hashpw [kwargs_get kwargs "password_digest"]);
  left ← lift (encode_utf8 hashed);
  salt ← bcrypt.gensalt 13;
  right ← lift (decode_utf8 salt);
  mret (VTuple [left; right]).

Definition __init__ `{Bcrypt} (kwargs : gmap string value) : M t :=
  let self := init_names kwargs blank in
  d ← init_digest kwargs;
  let self := set_password_digest d self in
  renewed ← call renew_session self;
  mret (fst renewed).

Definition verify_password `{Bcrypt} (self : t) (password : value)
  : result value :=
  p ← encode_utf8 password;
  bcrypt.checkpw [p; password_digest self].

Definition verify_session_token (self : t) (session_token' : value)
  : M bool :=
  and_then (eq_str session_token' (session_token self))
    (now ← datetime_now; mret (now <? session_expiration self)).

Definition verify_update_token (self : t) (update_token' : value) : bool :=
  eq_str update_token' (update_token self).

Definition serialize (self : t) : result value :=
  posts' ← comprehension Post.serialize (posts self);
  saved' ← comprehension SavedRecipe.recipe_serialize (saved_recipes self);
  mret (VDict [("id", id self);
               ("first_name", first_name self);
               ("last_name", last_name self);
               ("username", username self);
               ("posts", VList posts');
               ("saved_recipes", VList saved')]).

Definition simple_serialize (self : t) : value :=
  VDict [("id", id self);
         ("first_name", first_name self);
         ("last_name", last_name self);
         ("username", username self)].
End User.

(** ** Operations on a user, one at a time

    The methods a caller can invoke on a stored user. [perform] returns
    the user as the method leaves it together with the method's value;
    only [renew_session] assigns to [self]. *)
Inductive op : Type :=
| RenewSession
| VerifyPassword (password : value)
| VerifySessionToken (token : value)
| VerifyUpdateToken (token : value)
| Serialize
| SimpleSerialize.

Definition is_renew (o : op) : bool :=
  match o with RenewSession => true | _ => false end.

(** One operation as a method of the user it is called on. *)
Definition execute `{Bcrypt} (o : op) : User.Method value :=
  match o with
  | RenewSession =>
      _ ← User.renew_session; mret VNone
  | VerifyPassword p => fun s =>
      (User.verify_password (fst s) p, s)
  | VerifySessionToken t => fun s =>
      User.in_world (b ← User.verify_session_token (fst s) t; mret (VBool b)) s
  | VerifyUpdateToken t => fun s =>
      (Ok (VBool (User.verify_update_token (fst s) t)), s)
  | Serialize => fun s =>
      (User.serialize (fst s), s)
  | SimpleSerialize => fun s =>
      (Ok (User.simple_serialize (fst s)), s)
  end.

Definition perform `{Bcrypt} (o : op) (self : User.t) : M (User.t * value) :=
  User.call (execute o) self.

(** The user after [o], whether the method returned or raised. *)
Definition self_after `{Bcrypt} (o : op) (self : User.t) (w : World) : User.t :=
  fst (snd (execute o (self, w))).

(** The token the call of [_urlsafe_base_64] that starts [off] bytes
    further down the tape returns, and the token of the [k]-th call
    from [w] on (each call draws 64 bytes). *)
Definition token_at (w : World) (off : nat) : string :=
  Sha1.hexdigest (draw (advance off w) 64).

Definition nth_token (w : World) (k : nat) : string :=
  token_at w (64 * k).

(** The session invariant of the data model: both tokens are non-empty. *)
Definition tokens_nonempty (u : User.t) : Prop :=
  User.session_token u <> "" /\ User.update_token u <> "".

(** The keys of a serialized record, in order. *)
Definition dict_keys (v : value) : option (list string) :=
  match v with
  | VDict d => Some (map fst d)
  | _ => None
  end.

Definition user_keys : list string :=
  ["id"; "first_name"; "last_name"; "username"; "posts"; "saved_recipes"].

Definition simple_user_keys : list string :=
  ["id"; "first_name"; "last_name"; "username"].

Definition recipe_keys : list string :=
  ["id"; "title"; "summary"; "ingredients"; "instructions"].

(** The same user with another avatar URL. *)
Definition with_image_url (url : value) (u : User.t) : User.t :=
  User.mk (User.id u) (User.first_name u) (User.last_name u)
    (User.username u) (User.password_digest u) url (User.session_token u)
    (User.session_expiration u) (User.update_token u)
    (User.saved_recipes u) (User.posts u).

Definition credential_keys : list string :=
  ["password_digest"; "session_token"; "update_token"].

(** A creation request misses a field when [kwargs] has no such key. *)
Definition required_fields : list string :=
  ["first_name"; "last_name"; "username"; "password"].

Definition missing_field (kwargs : gmap string value) : Prop :=
  exists k, k ∈ required_fields /\ kwargs !! k = None.

(** ** Concrete inputs *)

(** A tape that counts, and a tape that repeats one byte. *)
Definition counting_tape : nat -> Byte.byte := fun i => byte_of_Z (Z.of_nat i).
Definition stuck_tape : nat -> Byte.byte := fun _ => Byte.x00.

(** Noon of 3 November 2025, day 739558 of the calendar. *)
Definition noon : datetime := (739557 * 86400 + 43200) * 1000000.

Definition world0 : World := mkWorld noon counting_tape 0.
Definition stuck_world : World := mkWorld noon stuck_tape 0.

(** The last day of the calendar: a day from its noon is past
    [datetime.max]. *)
Definition last_noon : datetime := datetime_max - 43200 * 1000000 + 1.
Definition last_day_world : World := mkWorld last_noon counting_tape 0.

(** A [str] that holds the lone surrogate U+D800 between two letters. *)
Definition lone_surrogate : string :=
  String "a" (String (ascii_of_nat 237) (String (ascii_of_nat 160)
    (String (ascii_of_nat 128) (String "b" EmptyString)))).

(** A toy hash, only to run the model on the concrete inputs below;
    the theorems hold for every instance of [Bcrypt]. *)
Definition toy_bcrypt : Bcrypt :=
  {| bcrypt_hash := fun p s => Some (take 29 s ++ p);
     bcrypt_salt := fun rounds raw => str_bytes "$2b$13$" ++ raw |}.

Definition alice_kwargs : gmap string value :=
  <["first_name" := VStr "Alice"]>
  (<["last_name" := VStr "Liddell"]>
  (<["username" := VStr "alice"]>
  (<["password_digest" := VStr "hunter2"]> ∅))).

(** The same request under the key the specification names. *)
Definition alice_kwargs_password : gmap string value :=
  <["first_name" := VStr "Alice"]>
  (<["last_name" := VStr "Liddell"]>
  (<["username" := VStr "alice"]>
  (<["password" := VStr "hunter2"]> ∅))).

(** A request without a first name. *)
Definition nameless_kwargs : gmap string value :=
  <["last_name" := VStr "Liddell"]>
  (<["username" := VStr "alice"]>
  (<["password" := VStr "hunter2"]> ∅)).

(** A stored user, as a row of [users] loads: every column a [str]. *)
Definition alice : User.t :=
  User.mk (VInt 1) (VStr "Alice") (VStr "Liddell") (VStr "alice")
    (VStr "$2b$13$abcdefghijklmnopqrstuuJ8xkq0E3v0V1xq1xq1xq1xq1xq1xq1x")
    VNone "0123456789abcdef0123456789abcdef01234567" (noon + 1000)
    "89abcdef0123456789abcdef0123456789abcdef" [] [].

(** A user whose tokens are what a stuck tape produces. *)
Definition stuck_token : string := Sha1.hexdigest (repeat Byte.x00 64).

Definition stuck_user : User.t :=
  User.set_session stuck_token noon stuck_token alice.

(** The text [a\nb\nc]. *)
Definition a_b_c : string :=
  String "a" (String newline (String "b" (String newline "c"))).

Definition pancakes : Recipe.t :=
  Recipe.mk (VInt 7) (VStr "Pancakes") (VStr "Quick")
    (VStr a_b_c) (VList [VStr "mix"; VStr "fry"]) VNone.

Definition alice_with_recipe : User.t :=
  User.mk (VInt 1) (VStr "Alice") (VStr "Liddell") (VStr "alice")
    (User.password_digest alice) (VStr "http://img/alice.png")
    (User.session_token alice) (User.session_expiration alice)
    (User.update_token alice)
    [SavedRecipe.mk (VInt 3) (Some pancakes)] [].

Definition alice_with_post : User.t :=
  User.mk (VInt 1) (VStr "Alice") (VStr "Liddell") (VStr "alice")
    (User.password_digest alice) VNone
    (User.session_token alice) (User.session_expiration alice)
    (User.update_token alice)
    [] [Post.mk (VInt 5) (VStr "Hello") (VStr "First post")].

(** ** Vocabulary for the further properties *)

Definition is_str (v : value) : bool :=
  match v with VStr _ => true | _ => false end.

Definition is_bytes (v : value) : bool :=
  match v with VBytes _ => true | _ => false end.

(** What [Recipe.serialize] can turn into a list. *)
Definition list_or_str (v : value) : bool :=
  match v with VList _ | VStr _ => true | _ => false end.

Definition recipe_serializable (r : Recipe.t) : bool :=
  list_or_str (Recipe.ingredients r) && list_or_str (Recipe.instructions r).

Definition bookmark_serializable (saved : SavedRecipe.t) : bool :=
  match SavedRecipe.recipe saved with
  | Some r => recipe_serializable r
  | None => false
  end.

Definition user_serializable (u : User.t) : bool :=
  match User.posts u with [] => true | _ :: _ => false end
  && forallb bookmark_serializable (User.saved_recipes u).

Fixpoint count_char (c : ascii) (s : string) : nat :=
  match s with
  | EmptyString => 0
  | String a rest =>
      ((if Ascii.eqb a c then 1 else 0) + count_char c rest)%nat
  end.

Fixpoint has_char (c : ascii) (s : string) : bool :=
  match s with
  | EmptyString => false
  | String a rest => Ascii.eqb a c || has_char c rest
  end.

Fixpoint all_chars (p : ascii -> bool) (s : string) : bool :=
  match s with
  | EmptyString => true
  | String a rest => p a && all_chars p rest
  end.

Definition is_hex_digit (c : ascii) : bool := has_char c "0123456789abcdef".

(** A history of calls on one user: each operation runs at the instant
    given with it, on the user and the entropy tape the previous ones
    left. *)
Fixpoint run_ops `{Bcrypt} (history : list (datetime * op)) (self : User.t)
    (w : World) : User.t * World :=
  match history with
  | [] => (self, w)
  | (t, o) :: rest =>
      run_ops rest (self_after o self (set_clock t w))
        (snd (perform o self (set_clock t w)))
  end.

(** What a renewal at instant [t] reads from [os.urandom]: both tokens
    when it returns, the first one only when line 63 raises. *)
Definition renewal_reads (t : datetime) : nat :=
  if datetime_ok (t + timedelta_days 1) then 128%nat else 64%nat.

Fixpoint entropy_read (history : list (datetime * op)) : nat :=
  match history with
  | [] => 0
  | (t, o) :: rest =>
      ((if is_renew o then renewal_reads t else 0) + entropy_read rest)%nat
  end.

Definition renewals (history : list (datetime * op)) : nat :=
  length (filter (fun e => is_renew (snd e) = true) history).

Definition bob : User.t :=
  User.mk (VInt 2) (VStr "Bob") (VStr "Builder") (VStr "bob")
    (VBytes (str_bytes "digest")) VNone
    "aaaaaaaaaaaaaaaaaaaaaaaaaaaaaaaaaaaaaaaa" noon
    "bbbbbbbbbbbbbbbbbbbbbbbbbbbbbbbbbbbbbbbb" [] [].

Definition pancake_kwargs : gmap string value :=
  <["title" := VStr "Pancakes"]>
  (<["summary" := VStr "Quick"]>
  (<["ingredients" := VList [VStr "flour"; VStr "milk"]]>
  (<["instructions" := VList [VStr "mix"; VStr "fry"]]>
  (<["image_url" := VStr "http://img/p.png"]> ∅)))).

Definition untitled_kwargs : gmap string value :=
  <["instructions" := VStr "mix"]> ∅.

(** * Properties *)

(** ** SHA-1 test vectors (FIPS 180-4 examples) *)

Example sha1_abc :
  Sha1.hexdigest (str_bytes "abc") = "a9993e364706816aba3e25717850c26c9cd0d89d".
Proof. vm_compute. reflexivity. Qed.

Example sha1_empty :
  Sha1.hexdigest [] = "da39a3ee5e6b4b0d3255bfef95601890afd80709".
Proof. vm_compute. reflexivity. Qed.

Example sha1_two_blocks :
  Sha1.hexdigest
    (str_bytes "abcdbcdecdefdefgefghfghighijhijkijkljklmklmnlmnomnopnopq")
  = "84983e441c3bd26ebaae4aa1f95129e5e54670f1".
Proof. vm_compute. reflexivity. Qed.


(** ** Tokens are forty hexadecimal digits *)

Lemma be_bytes_length n z : length (be_bytes n z) = n.
Proof. induction n as [|n IH]; simpl; [reflexivity | now rewrite IH]. Qed.

Lemma hex_length bs : String.length (hex bs) = (2 * length bs)%nat.
Proof. induction bs as [|b bs IH]; simpl; [reflexivity | rewrite IH; lia]. Qed.

Lemma digest_length m : length (Sha1.digest m) = 20%nat.
Proof.
  unfold Sha1.digest. cbv zeta.
  rewrite !length_app, !be_bytes_length. reflexivity.
Qed.

Lemma hexdigest_length m : String.length (Sha1.hexdigest m) = 40%nat.
Proof. unfold Sha1.hexdigest. now rewrite hex_length, digest_length. Qed.

Lemma hexdigest_nonempty m : Sha1.hexdigest m <> "".
Proof.
  intros E. pose proof (hexdigest_length m) as L.
  rewrite E in L. discriminate L.
Qed.

(** ** What [renew_session] computes *)

Lemma advance_advance a b w : advance a (advance b w) = advance (a + b) w.
Proof. unfold advance. simpl. f_equal. lia. Qed.

Lemma urlsafe_run w :
  User._urlsafe_base_64 w = (Ok (token_at w 0), advance 64 w).
Proof. reflexivity. Qed.

(** When a day from now is a [datetime], [renew_session] returns with
    the three columns assigned. *)
Lemma renew_session_returns u w :
  datetime_ok (clock w + timedelta_days 1) = true ->
  User.renew_session (u, w)
  = (Ok tt,
     (User.set_session (nth_token w 0) (clock w + timedelta_days 1)
        (nth_token w 1) u,
      advance 128 w)).
Proof.
  intros Hok.
  unfold User.renew_session, mbind, User.Method_bind, User.in_world,
    User.assign.
  cbn [fst snd]. rewrite urlsafe_run.
  unfold datetime_now, lift, datetime_add. cbn [fst snd clock advance].
  rewrite Hok. cbn [fst snd]. rewrite urlsafe_run, advance_advance.
  reflexivity.
Qed.

(** When it is not, line 63 raises after line 62 has assigned the new
    session token: the expiration and the update token are the old
    ones, and one token's worth of entropy is gone. *)
Lemma renew_session_overflows u w :
  datetime_ok (clock w + timedelta_days 1) = false ->
  User.renew_session (u, w)
  = (Raise OverflowError,
     (User.set_session (nth_token w 0) (User.session_expiration u)
        (User.update_token u) u,
      advance 64 w)).
Proof.
  intros Hok.
  unfold User.renew_session, mbind, User.Method_bind, User.in_world,
    User.assign.
  cbn [fst snd]. rewrite urlsafe_run.
  unfold datetime_now, lift, datetime_add. cbn [fst snd clock advance].
  rewrite Hok. reflexivity.
Qed.

Lemma nth_token_advance w k j :
  nth_token (advance (64 * k) w) j = nth_token w (j + k).
Proof.
  unfold nth_token, token_at. rewrite advance_advance.
  replace (64 * j + 64 * k)%nat with (64 * (j + k))%nat by lia.
  reflexivity.
Qed.

Lemma nth_token_set_clock c w k : nth_token (set_clock c w) k = nth_token w k.
Proof. reflexivity. Qed.

Lemma eq_str_decide t s : eq_str (VStr t) s = bool_decide (t = s).
Proof.
  simpl. destruct (String.eqb_spec t s) as [E|E].
  - now rewrite bool_decide_eq_true_2.
  - now rewrite bool_decide_eq_false_2.
Qed.

Lemma verify_session_token_run u v w :
  User.verify_session_token u v w
  = (Ok (eq_str v (User.session_token u)
         && (clock w <? User.session_expiration u)), w).
Proof.
  unfold User.verify_session_token, and_then.
  destruct (eq_str v (User.session_token u)); reflexivity.
Qed.

(** ** Creation *)

Section Creation.
Context `{Bcrypt}.

Lemma init_digest_raises kwargs w :
  User.init_digest kwargs w = (Raise TypeError, w).
Proof. reflexivity. Qed.

(** C1: [User.__init__] calls [bcrypt.hashpw] with one positional
    argument (the salt is generated outside the call, as the second
    component of a pair), so for every creation request and whatever
    the hash function, construction stops with [TypeError] before
    any digest is stored, any random byte is drawn or any session is
    issued. *)
Theorem init_raises_TypeError (kwargs : gmap string value) (w : World) :
  User.__init__ kwargs w = (Raise TypeError, w).
Proof.
  unfold User.__init__, mbind, M_bind.
  rewrite init_digest_raises. reflexivity.
Qed.

(** X4: a stored digest is a [str] (the column is [db.String]), and
    [bcrypt.checkpw] refuses a [str]: for such a user
    [verify_password] never returns. It raises [TypeError] on every
    candidate string that encodes to UTF-8, and [UnicodeEncodeError]
    on a candidate that holds a surrogate, which fails at
    [password.encode] before the digest is looked at. *)
Lemma verify_password_str_digest (u : User.t) (p d : string) :
  User.password_digest u = VStr d ->
  User.verify_password u (VStr p)
  = Raise (if utf8_valid (str_bytes p) then TypeError
           else UnicodeEncodeError).
Proof.
  intros E. unfold User.verify_password, mbind, result_bind.
  cbn [encode_utf8]. destruct (utf8_valid (str_bytes p)); [| reflexivity].
  rewrite E. reflexivity.
Qed.

(** A digest left by [__init__] would be a pair, refused as well. *)
Lemma verify_password_pair_digest u p l :
  User.password_digest u = VTuple l ->
  User.verify_password u (VStr p)
  = Raise (if utf8_valid (str_bytes p) then TypeError
           else UnicodeEncodeError).
Proof.
  intros E. unfold User.verify_password, mbind, result_bind.
  cbn [encode_utf8]. destruct (utf8_valid (str_bytes p)); [| reflexivity].
  rewrite E. reflexivity.
Qed.
End Creation.

(** ** Verifying tokens *)

(** C2: for every user and every string [t], [verify_session_token]
    returns a boolean and never raises; the boolean is true exactly
    when [t] is the stored session token and the clock is strictly
    before the stored expiration. At the boundary, a user whose
    expiration is the current instant is refused even with the right
    token. *)
Theorem verify_session_token_iff (u : User.t) (t : string) (w : World) :
  (exists b : bool,
      User.verify_session_token u (VStr t) w = (Ok b, w)
      /\ (b = true <->
          t = User.session_token u /\ clock w < User.session_expiration u))
  /\ User.verify_session_token
       (User.set_session (User.session_token u) (clock w)
          (User.update_token u) u)
       (VStr (User.session_token u)) w
     = (Ok false, w).
Proof.
  split.
  - eexists. split; [apply verify_session_token_run |].
    rewrite eq_str_decide, andb_true_iff, bool_decide_eq_true, Z.ltb_lt.
    reflexivity.
  - rewrite verify_session_token_run. simpl.
    now rewrite Z.ltb_irrefl, andb_false_r.
Qed.

Section Operations.
Context `{Bcrypt}.

Lemma self_after_renew u w :
  self_after RenewSession u w
  = if datetime_ok (clock w + timedelta_days 1)
    then User.set_session (nth_token w 0) (clock w + timedelta_days 1)
           (nth_token w 1) u
    else User.set_session (nth_token w 0) (User.session_expiration u)
           (User.update_token u) u.
Proof.
  unfold self_after, execute, mbind, User.Method_bind.
  destruct (datetime_ok (clock w + timedelta_days 1)) eqn:Hok.
  - now rewrite renew_session_returns.
  - now rewrite renew_session_overflows.
Qed.

Lemma self_after_other o u w : is_renew o = false -> self_after o u w = u.
Proof.
  unfold self_after, execute.
  destruct o; cbn [is_renew]; try discriminate; intros _; try reflexivity.
  unfold User.in_world, mbind, M_bind. cbn [fst snd].
  now rewrite verify_session_token_run.
Qed.

(** C5: for every user and every string [t], [verify_update_token]
    is true exactly when [t] is the stored update token. It reads no
    clock, so the answer is the same at every instant, and of all
    the operations on a user only [renew_session] changes the stored
    update token: it does when it returns, and when it raises at line
    63 the stored update token is still the old one. *)
Theorem verify_update_token_iff (u : User.t) (t : string) :
  User.verify_update_token u (VStr t) = bool_decide (t = User.update_token u)
  /\ (forall (w : World) (c : datetime),
        perform (VerifyUpdateToken (VStr t)) u (set_clock c w)
        = (Ok (u, VBool (bool_decide (t = User.update_token u))),
           set_clock c w))
  /\ (forall (o : op) (w : World),
        User.update_token (self_after o u w)
        = if is_renew o && datetime_ok (clock w + timedelta_days 1)
          then nth_token w 1 else User.update_token u).
Proof.
  split; [apply eq_str_decide |]. split.
  - intros w c. unfold perform, User.call, execute.
    unfold User.verify_update_token. now rewrite eq_str_decide.
  - intros o w. destruct (is_renew o) eqn:R.
    + destruct o; try discriminate. rewrite self_after_renew.
      now destruct (datetime_ok (clock w + timedelta_days 1)).
    + now rewrite self_after_other.
Qed.
End Operations.

(** ** Renewal *)

(** C3, as the code has it: when a day from now is still a
    [datetime], [renew_session] returns; it stores the two tokens it
    generates (the first and the second call of [_urlsafe_base_64]),
    sets the expiration to the current time plus 24 hours and leaves
    every other column alone. A previous token stops comparing equal
    to the stored field whenever the token generated in its place
    differs from it. *)
Theorem renew_session_overwrites (u : User.t) (w : World) :
  datetime_ok (clock w + timedelta_days 1) = true ->
  exists u' : User.t,
    User.renew_session (u, w) = (Ok tt, (u', advance 128 w))
    /\ User.session_token u' = nth_token w 0
    /\ User.update_token u' = nth_token w 1
    /\ User.session_expiration u' = clock w + 24 * 3600 * 1000000
    /\ u' = User.set_session (User.session_token u') (User.session_expiration u')
              (User.update_token u') u
    /\ (nth_token w 0 <> User.session_token u ->
        forall w',
          User.verify_session_token u' (VStr (User.session_token u)) w'
          = (Ok false, w'))
    /\ (nth_token w 1 <> User.update_token u ->
        User.verify_update_token u' (VStr (User.update_token u)) = false).
Proof.
  intros Hok. eexists. split; [now apply renew_session_returns |].
  repeat split.
  - intros Hs w'. rewrite verify_session_token_run, eq_str_decide. simpl.
    rewrite bool_decide_eq_false_2; [reflexivity | congruence].
  - intros Hu. unfold User.verify_update_token. rewrite eq_str_decide. simpl.
    rewrite bool_decide_eq_false_2; [reflexivity | congruence].
Qed.

Lemma renew_session_overwrites_witness :
  exists u' : User.t,
    User.renew_session (alice, world0) = (Ok tt, (u', advance 128 world0))
    /\ User.session_token u' = "c6138d514ffa2135bfce0ed0b8fac65669917ec7"
    /\ User.update_token u' = "08f42ca259cf121d2ea9cd8b6c5b24c86d733db7"
    /\ User.session_expiration u' = noon + 86400000000
    /\ User.verify_session_token u' (VStr (User.session_token alice)) world0
       = (Ok false, world0)
    /\ User.verify_update_token u' (VStr (User.update_token alice)) = false.
Proof.
  destruct (renew_session_overwrites alice world0 eq_refl)
    as (u' & Hrun & Hs & Hu & He & _ & Vs & Vu).
  exists u'. split; [exact Hrun |].
  split; [rewrite Hs; vm_compute; reflexivity |].
  split; [rewrite Hu; vm_compute; reflexivity |].
  split; [exact He |].
  split.
  - apply Vs. vm_compute. discriminate.
  - apply Vu. vm_compute. discriminate.
Defined.

(** C3, as stated, fails: on the last day of the calendar the sum on
    line 63 is past [datetime.max]. [renew_session] raises
    [OverflowError] with the session token already replaced; the
    expiration is not set to a day from now, the update token is not
    overwritten, and the previous update token still compares equal to
    the stored one. *)
Lemma renew_session_on_last_day :
  exists u' : User.t,
    User.renew_session (alice, last_day_world)
    = (Raise OverflowError, (u', advance 64 last_day_world))
    /\ User.session_token u' = "c6138d514ffa2135bfce0ed0b8fac65669917ec7"
    /\ User.session_expiration u' = User.session_expiration alice
    /\ User.update_token u' = User.update_token alice
    /\ User.verify_update_token u' (VStr (User.update_token alice)) = true.
Proof.
  eexists. split; [now apply renew_session_overflows |].
  repeat split; vm_compute; reflexivity.
Qed.

(** The proviso on the generated tokens cannot be dropped either: an
    entropy source that repeats itself regenerates the previous
    tokens, and both still verify after renewal. *)
Lemma renew_session_stuck_source :
  exists (u' : User.t) (w' : World),
    User.renew_session (stuck_user, stuck_world) = (Ok tt, (u', w'))
    /\ User.session_token u' = User.session_token stuck_user
    /\ User.update_token u' = User.update_token stuck_user
    /\ User.verify_session_token u' (VStr (User.session_token stuck_user)) w'
       = (Ok true, w')
    /\ User.verify_update_token u' (VStr (User.update_token stuck_user)) = true.
Proof.
  do 2 eexists. split; [now apply renew_session_returns |].
  repeat split; vm_compute; reflexivity.
Qed.

Lemma NoDup_four {A : Type} (a b c d : A) :
  NoDup [a; b; c; d] -> a <> c /\ b <> d.
Proof.
  intros ND. apply NoDup_cons in ND as [Ha ND].
  apply NoDup_cons in ND as [Hb _].
  split; intros ->.
  - apply Ha. right. left.
  - apply Hb. right. left.
Qed.

(** C7, as the code has it: when the four tokens that two renewals
    generate are pairwise distinct and each renewal happens at least a
    day before [datetime.max], renewing twice gives two different
    session tokens and two different update tokens, and after the
    second renewal the first session token and the first update token
    are both refused. *)
Theorem renew_session_twice (u : User.t) (w : World) (c : datetime)
    (fresh : NoDup [nth_token w 0; nth_token w 1;
                    nth_token w 2; nth_token w 3])
    (first_in_range : datetime_ok (clock w + timedelta_days 1) = true)
    (second_in_range : datetime_ok (c + timedelta_days 1) = true) :
  exists (u1 : User.t) (w1 : World) (u2 : User.t) (w2 : World),
    User.renew_session (u, w) = (Ok tt, (u1, w1))
    /\ User.renew_session (u1, set_clock c w1) = (Ok tt, (u2, w2))
    /\ User.session_token u1 <> User.session_token u2
    /\ User.update_token u1 <> User.update_token u2
    /\ (forall w',
          User.verify_session_token u2 (VStr (User.session_token u1)) w'
          = (Ok false, w'))
    /\ User.verify_update_token u2 (VStr (User.update_token u1)) = false.
Proof.
  apply NoDup_four in fresh as [S02 U13].
  do 4 eexists.
  split; [now apply renew_session_returns |].
  split; [now apply renew_session_returns |].
  rewrite !nth_token_set_clock.
  change (advance 128 w) with (advance (64 * 2) w).
  rewrite !nth_token_advance.
  change (0 + 2)%nat with 2%nat. change (1 + 2)%nat with 3%nat.
  cbn [User.session_token User.update_token User.set_session].
  split; [assumption |]. split; [assumption |]. split.
  - intros w'. rewrite verify_session_token_run, eq_str_decide.
    cbn [User.session_token User.update_token User.set_session].
    now rewrite bool_decide_eq_false_2.
  - unfold User.verify_update_token. rewrite eq_str_decide.
    cbn [User.session_token User.update_token User.set_session].
    now rewrite bool_decide_eq_false_2.
Qed.

Lemma world0_tokens :
  [nth_token world0 0; nth_token world0 1; nth_token world0 2;
   nth_token world0 3]
  = ["c6138d514ffa2135bfce0ed0b8fac65669917ec7";
     "08f42ca259cf121d2ea9cd8b6c5b24c86d733db7";
     "9c7aa2b11f270998a63b1b1795cff3890a4eb56f";
     "b9a1399c1280298cc14674769cff87a0a785e6ab"].
Proof. vm_compute. reflexivity. Qed.

Lemma renew_session_twice_witness :
  exists (u1 : User.t) (w1 : World) (u2 : User.t) (w2 : World),
    User.renew_session (alice, world0) = (Ok tt, (u1, w1))
    /\ User.renew_session (u1, set_clock (noon + 60000000) w1)
       = (Ok tt, (u2, w2))
    /\ User.session_token u1 <> User.session_token u2
    /\ User.update_token u1 <> User.update_token u2
    /\ (forall w',
          User.verify_session_token u2 (VStr (User.session_token u1)) w'
          = (Ok false, w'))
    /\ User.verify_update_token u2 (VStr (User.update_token u1)) = false.
Proof.
  apply (renew_session_twice alice world0 (noon + 60000000)).
  - rewrite world0_tokens.
    apply (bool_decide_unpack _). vm_compute. exact I.
  - reflexivity.
  - reflexivity.
Defined.

(** C7, as stated, fails: on the last day of the calendar the tokens
    the generator yields are pairwise distinct, as the claim assumes,
    yet each of two renewals in a row raises [OverflowError] at line
    63 before line 64 runs. No update token is produced: the stored
    one is the same after the first call and after the second, and it
    is still the one the user had, which [verify_update_token] goes on
    accepting. *)
Lemma renew_session_twice_on_last_day :
  NoDup [nth_token last_day_world 0; nth_token last_day_world 1;
         nth_token last_day_world 2; nth_token last_day_world 3]
  /\ exists (u1 : User.t) (w1 : World) (u2 : User.t) (w2 : World),
      User.renew_session (alice, last_day_world)
      = (Raise OverflowError, (u1, w1))
      /\ User.renew_session (u1, w1) = (Raise OverflowError, (u2, w2))
      /\ User.update_token u1 = User.update_token u2
      /\ User.update_token u2 = User.update_token alice
      /\ User.verify_update_token u2 (VStr (User.update_token alice)) = true.
Proof.
  split.
  - change (nth_token last_day_world) with (nth_token world0).
    rewrite world0_tokens.
    apply (bool_decide_unpack _). vm_compute. exact I.
  - do 4 eexists.
    split; [now apply renew_session_overflows |].
    split; [now apply renew_session_overflows |].
    cbn [User.update_token User.set_session].
    split; [reflexivity |]. split; [reflexivity |].
    vm_compute. reflexivity.
Qed.

Lemma verify_password_str_digest_witness :
  @User.verify_password toy_bcrypt alice (VStr "hunter2") = Raise TypeError
  /\ @User.verify_password toy_bcrypt alice (VStr lone_surrogate)
     = Raise UnicodeEncodeError.
Proof.
  split.
  - exact (@verify_password_str_digest toy_bcrypt alice "hunter2"
             "$2b$13$abcdefghijklmnopqrstuuJ8xkq0E3v0V1xq1xq1xq1xq1xq1xq1x"
             eq_refl).
  - exact (@verify_password_str_digest toy_bcrypt alice lone_surrogate
             "$2b$13$abcdefghijklmnopqrstuuJ8xkq0E3v0V1xq1xq1xq1xq1xq1xq1x"
             eq_refl).
Defined.

(** ** The session invariant *)



Section Invariant.
Context `{Bcrypt}.

(** X2: every operation on a stored user keeps both tokens
    non-empty. *)
Lemma perform_keeps_tokens_nonempty (o : op) (u : User.t) (w : World) :
  tokens_nonempty u -> tokens_nonempty (self_after o u w).
Proof.
  intros Inv. destruct (is_renew o) eqn:R.
  - destruct o; try discriminate. rewrite self_after_renew.
    destruct (datetime_ok (clock w + timedelta_days 1));
      (split; [apply hexdigest_nonempty |]);
      cbn [User.update_token User.set_session];
      [apply hexdigest_nonempty | apply Inv].
  - now rewrite self_after_other.
Qed.

(** C6: on the request of the specification's scenario, under either
    spelling of the password key, [__init__] raises [TypeError] at
    line 46 and never reaches [self.renew_session()]: no user is
    returned, no token is generated (the entropy tape is untouched),
    so there is no session token that could verify after creation. *)
Theorem create_issues_no_session :
  User.__init__ alice_kwargs world0 = (Raise TypeError, world0)
  /\ User.__init__ alice_kwargs_password world0 = (Raise TypeError, world0)
  /\ drawn (snd (User.__init__ alice_kwargs world0)) = 0%nat.
Proof.
  unfold User.__init__, mbind, M_bind.
  rewrite !init_digest_raises. repeat split.
Qed.

(** C8, as the code has it: [__init__] has no validation step. It
    reads the three names with [kwargs.get], so a missing one is
    stored as [None] and raises nothing, and whatever the request no
    [ValidationError] comes out of it. *)
Theorem create_never_validates (kwargs : gmap string value) (w : World) :
  (forall k : string, kwargs !! k = None -> kwargs_get kwargs k = VNone)
  /\ User.first_name (User.init_names kwargs User.blank)
     = kwargs_get kwargs "first_name"
  /\ User.last_name (User.init_names kwargs User.blank)
     = kwargs_get kwargs "last_name"
  /\ User.username (User.init_names kwargs User.blank)
     = kwargs_get kwargs "username"
  /\ fst (User.__init__ kwargs w) <> Raise ValidationError.
Proof.
  split; [intros k E; unfold kwargs_get; now rewrite E |].
  repeat split.
  unfold User.__init__, mbind, M_bind.
  rewrite init_digest_raises. discriminate.
Qed.
End Invariant.

Lemma perform_keeps_tokens_nonempty_witness :
  tokens_nonempty (@self_after toy_bcrypt RenewSession alice world0)
  /\ tokens_nonempty
       (@self_after toy_bcrypt (VerifyPassword (VStr "hunter2")) alice world0).
Proof.
  split; apply (@perform_keeps_tokens_nonempty toy_bcrypt);
    split; vm_compute; discriminate.
Defined.

Lemma create_never_validates_witness :
  User.first_name (User.init_names nameless_kwargs User.blank) = VNone
  /\ fst (@User.__init__ toy_bcrypt nameless_kwargs world0)
     <> Raise ValidationError.
Proof.
  destruct (@create_never_validates toy_bcrypt nameless_kwargs world0)
    as (Hget & Hfn & _ & _ & Hno).
  split; [| exact Hno].
  rewrite Hfn. apply Hget. reflexivity.
Defined.

(** C8, as stated, fails: a request without a first name misses a
    required field, yet for every hash function and every world
    [__init__] raises [TypeError], which is not [ValidationError]. *)
Lemma create_without_first_name :
  missing_field nameless_kwargs
  /\ (forall (bc : Bcrypt) (w : World),
        fst (@User.__init__ bc nameless_kwargs w) = Raise TypeError)
  /\ @Raise User.t TypeError <> Raise ValidationError.
Proof.
  split; [| split].
  - exists "first_name". split; [left | reflexivity].
  - intros bc w. unfold User.__init__, mbind, M_bind.
    now rewrite init_digest_raises.
  - discriminate.
Qed.

(** ** Serialization *)

(** Closes [k ∉ [k1; ...; kn]] for literal keys. *)
Ltac not_a_key :=
  rewrite !elem_of_cons, elem_of_nil;
  let Hin := fresh "Hin" in
  intros Hin; repeat (destruct Hin as [Hin | Hin]; [discriminate Hin |]);
  exact Hin.

Lemma as_list_is_list x v : Recipe.as_list x = Ok v -> exists l, v = VList l.
Proof. destruct x; simpl; intros E; inversion E; eauto. Qed.

Lemma recipe_serialize_keys r v :
  Recipe.serialize r = Ok v -> dict_keys v = Some recipe_keys.
Proof.
  unfold Recipe.serialize, mbind, result_bind.
  destruct (Recipe.as_list (Recipe.ingredients r)); [| discriminate].
  destruct (Recipe.as_list (Recipe.instructions r)); [| discriminate].
  intros E. inversion E. reflexivity.
Qed.

Lemma saved_recipes_keys l vs :
  comprehension SavedRecipe.recipe_serialize l = Ok vs ->
  Forall (fun v => dict_keys v = Some recipe_keys) vs.
Proof.
  revert vs. induction l as [|x l IH]; simpl; intros vs E.
  - inversion E. constructor.
  - unfold mbind, result_bind in E.
    destruct (SavedRecipe.recipe_serialize x) as [v|] eqn:Ex; [| discriminate].
    destruct (comprehension SavedRecipe.recipe_serialize l) as [vs'|];
      [| discriminate].
    inversion E. subst vs. constructor; [| now apply IH].
    unfold SavedRecipe.recipe_serialize in Ex.
    destruct (SavedRecipe.recipe x); [| discriminate].
    now apply recipe_serialize_keys in Ex.
Qed.

(** [post.serialize()] raises, so the comprehension over the posts
    returns only when there is no post. *)
Lemma posts_comprehension l vs :
  comprehension Post.serialize l = Ok vs -> l = [] /\ vs = [].
Proof. destruct l; simpl; intros E; inversion E. split; reflexivity. Qed.

(** X3: [serialize] raises [AttributeError] for every user who has at
    least one post. *)
Lemma serialize_with_posts (u : User.t) :
  User.posts u <> [] -> User.serialize u = Raise AttributeError.
Proof.
  unfold User.serialize. destruct (User.posts u); [congruence |].
  reflexivity.
Qed.

Lemma serialize_with_posts_witness :
  User.serialize alice_with_post = Raise AttributeError.
Proof. apply serialize_with_posts. vm_compute. discriminate. Defined.

(** The shape of whatever [serialize] returns. *)
Lemma serialize_shape u d :
  User.serialize u = Ok d ->
  exists recipes : list value,
    d = VDict [("id", User.id u);
               ("first_name", User.first_name u);
               ("last_name", User.last_name u);
               ("username", User.username u);
               ("posts", VList []);
               ("saved_recipes", VList recipes)]
    /\ Forall (fun v => dict_keys v = Some recipe_keys) recipes.
Proof.
  unfold User.serialize, mbind, result_bind.
  destruct (comprehension Post.serialize (User.posts u)) as [ps|] eqn:Ep;
    [| discriminate].
  destruct (comprehension SavedRecipe.recipe_serialize (User.saved_recipes u))
    as [rs|] eqn:Er; [| discriminate].
  intros E. inversion E. exists rs.
  apply posts_comprehension in Ep as [_ ->].
  split; [reflexivity | now apply saved_recipes_keys in Er].
Qed.

(** C4: for every user, [simple_serialize] returns a dictionary with
    exactly the keys id, first_name, last_name and username, and
    whatever [serialize] returns is a dictionary with the keys of
    [user_keys] whose nested recipes have the keys of [recipe_keys];
    none of password_digest, session_token, update_token is among
    any of them. *)
Theorem serialize_omits_credentials (u : User.t) :
  dict_keys (User.simple_serialize u) = Some simple_user_keys
  /\ (forall d : value,
        User.serialize u = Ok d ->
        exists recipes : list value,
          d = VDict [("id", User.id u);
                     ("first_name", User.first_name u);
                     ("last_name", User.last_name u);
                     ("username", User.username u);
                     ("posts", VList []);
                     ("saved_recipes", VList recipes)]
          /\ Forall (fun v => dict_keys v = Some recipe_keys) recipes)
  /\ (forall k : string,
        k ∈ credential_keys ->
        (k ∉ simple_user_keys) /\ (k ∉ user_keys) /\ (k ∉ recipe_keys)).
Proof.
  split; [reflexivity |]. split; [apply serialize_shape |].
  intros k Hk. unfold credential_keys in Hk.
  unfold simple_user_keys, user_keys, recipe_keys.
  rewrite !elem_of_cons, elem_of_nil in Hk.
  destruct Hk as [-> | [-> | [-> | []]]]; repeat split; not_a_key.
Qed.

Lemma serialize_omits_credentials_witness :
  exists recipes : list value,
    User.serialize alice_with_recipe
    = Ok (VDict [("id", VInt 1);
                 ("first_name", VStr "Alice");
                 ("last_name", VStr "Liddell");
                 ("username", VStr "alice");
                 ("posts", VList []);
                 ("saved_recipes", VList recipes)])
    /\ Forall (fun v => dict_keys v = Some recipe_keys) recipes
    /\ ("session_token" ∉ user_keys).
Proof.
  destruct (serialize_omits_credentials alice_with_recipe) as (_ & Hfull & Hk).
  destruct (Hfull _ eq_refl) as (rs & E & Hrs).
  exists rs. split; [| split; [exact Hrs |]].
  - vm_compute. vm_compute in E. now rewrite E.
  - apply Hk. unfold credential_keys. right. left.
Defined.

(** C10: whenever [serialize] returns, its keys are exactly id,
    first_name, last_name, username, posts, saved_recipes; the keys of
    [simple_serialize] are the first four. There is no image_url key in
    either, and neither output depends on the stored avatar URL. *)
Theorem user_serialize_keys (u : User.t) (d : value)
    (returned : User.serialize u = Ok d) :
  dict_keys d = Some user_keys
  /\ dict_keys (User.simple_serialize u) = Some simple_user_keys
  /\ ("image_url" ∉ user_keys)
  /\ ("image_url" ∉ simple_user_keys)
  /\ (forall url : value,
        User.serialize (with_image_url url u) = Ok d
        /\ User.simple_serialize (with_image_url url u)
           = User.simple_serialize u).
Proof.
  destruct (serialize_shape u d returned) as (rs & -> & _).
  split; [reflexivity |]. split; [reflexivity |].
  split; [| split].
  - unfold user_keys. not_a_key.
  - unfold simple_user_keys. not_a_key.
  - intros url. split; [exact returned | reflexivity].
Qed.

Lemma user_serialize_keys_witness :
  exists d : value,
    User.serialize alice_with_recipe = Ok d
    /\ dict_keys d = Some user_keys
    /\ User.serialize (with_image_url VNone alice_with_recipe) = Ok d.
Proof.
  eexists. split; [vm_compute; reflexivity |].
  match goal with
  | |- dict_keys ?d = _ /\ _ =>
      destruct (user_serialize_keys alice_with_recipe d eq_refl)
        as (Hk & _ & _ & _ & Hurl)
  end.
  split; [exact Hk | apply Hurl].
Defined.

Lemma split_on_nonempty sep s : split_on sep s <> [].
Proof.
  destruct s as [|c rest]; simpl; [discriminate |].
  destruct (Ascii.eqb c sep); [discriminate |].
  destruct (split_on sep rest); discriminate.
Qed.

Lemma join_on_cons_char sep c piece pieces :
  join_on sep (String c piece :: pieces)
  = String c (join_on sep (piece :: pieces)).
Proof. destruct pieces; reflexivity. Qed.

Lemma join_split sep s : join_on sep (split_on sep s) = s.
Proof.
  induction s as [|c rest IH]; [reflexivity |].
  simpl. pose proof (split_on_nonempty sep rest) as NE.
  destruct (Ascii.eqb_spec c sep) as [-> | Hc];
    destruct (split_on sep rest) as [|piece pieces]; try congruence.
  - simpl. simpl in IH. now rewrite IH.
  - rewrite join_on_cons_char. now rewrite IH.
Qed.

(** C9: [Recipe.serialize] gives ingredients and instructions as
    lists. A stored list comes out as it is; a stored string comes out
    as its pieces between newlines, so [a\nb\nc] gives [a], [b], [c],
    and joining the pieces with newlines gives the string back. *)
Theorem recipe_serialize_normalizes
    (i t s img : value) (xs ys : list value) (a b : string) :
  Recipe.serialize (Recipe.mk i t s (VList xs) (VList ys) img)
  = Ok (VDict [("id", i); ("title", t); ("summary", s);
               ("ingredients", VList xs); ("instructions", VList ys)])
  /\ Recipe.serialize (Recipe.mk i t s (VStr a) (VStr b) img)
     = Ok (VDict [("id", i); ("title", t); ("summary", s);
                  ("ingredients", VList (map VStr (split_on newline a)));
                  ("instructions", VList (map VStr (split_on newline b)))])
  /\ Recipe.serialize (Recipe.mk i t s (VStr a_b_c) (VList ys) img)
     = Ok (VDict [("id", i); ("title", t); ("summary", s);
                  ("ingredients", VList [VStr "a"; VStr "b"; VStr "c"]);
                  ("instructions", VList ys)])
  /\ Recipe.serialize (Recipe.mk i t s (VList xs) (VStr a_b_c) img)
     = Ok (VDict [("id", i); ("title", t); ("summary", s);
                  ("ingredients", VList xs);
                  ("instructions", VList [VStr "a"; VStr "b"; VStr "c"])])
  /\ join_on newline (split_on newline a) = a.
Proof.
  repeat split. apply join_split.
Qed.

(** ** Further properties of sessions *)

(** X5: the session that [renew_session] opens lasts exactly one day.
    When the renewal returns (a day from now is still a [datetime]),
    the token it stored verifies at every instant strictly before the
    renewal time plus 24 hours and at no instant from then on; the
    update token it stored verifies whatever the time. *)
Theorem session_window (u : User.t) (w : World) (c : datetime) :
  datetime_ok (clock w + timedelta_days 1) = true ->
  exists u' : User.t,
    User.renew_session (u, w) = (Ok tt, (u', advance 128 w))
    /\ User.verify_session_token u' (VStr (User.session_token u'))
         (set_clock c (advance 128 w))
       = (Ok (bool_decide (c < clock w + 24 * 3600 * 1000000)),
          set_clock c (advance 128 w))
    /\ User.verify_update_token u' (VStr (User.update_token u')) = true.
Proof.
  intros Hok. eexists. split; [now apply renew_session_returns |]. split.
  - rewrite verify_session_token_run, eq_str_decide.
    cbn [User.session_token User.session_expiration User.set_session
         clock set_clock].
    rewrite bool_decide_eq_true_2 by reflexivity.
    cbn [andb]. do 2 f_equal.
    destruct (Z.ltb_spec c (clock w + timedelta_days 1)) as [Lt | Ge];
      unfold timedelta_days in *.
    + rewrite bool_decide_eq_true_2; [reflexivity | lia].
    + rewrite bool_decide_eq_false_2; [reflexivity | lia].
  - unfold User.verify_update_token. rewrite eq_str_decide.
    now rewrite bool_decide_eq_true_2.
Qed.

Lemma session_window_witness :
  exists u' : User.t,
    User.renew_session (alice, world0) = (Ok tt, (u', advance 128 world0))
    /\ User.verify_session_token u' (VStr (User.session_token u'))
         (set_clock (noon + 86400000000 - 1) (advance 128 world0))
       = (Ok true, set_clock (noon + 86400000000 - 1) (advance 128 world0))
    /\ User.verify_update_token u' (VStr (User.update_token u')) = true.
Proof.
  exact (session_window alice world0 (noon + 86400000000 - 1) eq_refl).
Defined.

(** X6: a refusal does not expire. Once [verify_session_token] has
    refused a value at some instant, it refuses the same value at
    every later instant, as long as the user is not renewed. *)
Theorem refusal_is_permanent (u : User.t) (v : value) (w : World)
    (c c' : datetime) :
  c <= c' ->
  User.verify_session_token u v (set_clock c w) = (Ok false, set_clock c w) ->
  User.verify_session_token u v (set_clock c' w)
  = (Ok false, set_clock c' w).
Proof.
  intros Le. rewrite !verify_session_token_run.
  cbn [clock set_clock]. intros E.
  injection E as E. do 2 f_equal.
  apply andb_false_iff in E as [E | E]; [now rewrite E |].
  apply andb_false_iff. right.
  apply Z.ltb_ge in E. apply Z.ltb_ge. lia.
Qed.

Lemma refusal_is_permanent_witness :
  User.verify_session_token alice (VStr (User.session_token alice))
    (set_clock (noon + 86400000000) world0)
  = (Ok false, set_clock (noon + 86400000000) world0).
Proof.
  apply (refusal_is_permanent alice _ world0 (noon + 1000)).
  - vm_compute. discriminate.
  - vm_compute. reflexivity.
Defined.

(** X7: only a [str] can verify. For every user and every instant, a
    candidate that is not a [str] ([None], a number, [bytes] spelling
    the very characters of the stored token, ...) is refused by both
    verifications, with no exception. *)
Theorem verification_refuses_non_str (u : User.t) (v : value) (w : World) :
  is_str v = false ->
  User.verify_session_token u v w = (Ok false, w)
  /\ User.verify_update_token u v = false.
Proof.
  intros Hv. rewrite verify_session_token_run.
  unfold User.verify_update_token.
  destruct v; try discriminate Hv; split; reflexivity.
Qed.

Lemma verification_refuses_non_str_witness :
  User.verify_session_token alice
    (VBytes (str_bytes (User.session_token alice))) world0
  = (Ok false, world0)
  /\ User.verify_update_token alice
       (VBytes (str_bytes (User.update_token alice))) = false.
Proof.
  split.
  - apply (verification_refuses_non_str alice
             (VBytes (str_bytes (User.session_token alice))) world0).
    reflexivity.
  - apply (verification_refuses_non_str alice
             (VBytes (str_bytes (User.update_token alice))) world0).
    reflexivity.
Defined.

Lemma NoDup_four_pairs {A : Type} (a b c d : A) :
  NoDup [a; b; c; d] -> a <> b /\ a <> c /\ b <> d.
Proof.
  intros ND. apply NoDup_cons in ND as [Ha ND].
  apply NoDup_cons in ND as [Hb _].
  repeat split; intros ->.
  - apply Ha. left.
  - apply Ha. right. left.
  - apply Hb. right. left.
Qed.

(** X8: renewing two users one after the other, each at least a day
    before [datetime.max], when the four tokens generated are pairwise
    distinct, leaves four different stored tokens: neither
    verification of one user accepts a token of the other, and a
    user's session token is not accepted as that user's update token
    nor the update token as the session token. *)
Theorem renewals_do_not_collide (a b : User.t) (w : World) (c : datetime)
    (fresh : NoDup [nth_token w 0; nth_token w 1;
                    nth_token w 2; nth_token w 3])
    (first_in_range : datetime_ok (clock w + timedelta_days 1) = true)
    (second_in_range : datetime_ok (c + timedelta_days 1) = true) :
  exists (a' : User.t) (w1 : World) (b' : User.t) (w2 : World),
    User.renew_session (a, w) = (Ok tt, (a', w1))
    /\ User.renew_session (b, set_clock c w1) = (Ok tt, (b', w2))
    /\ NoDup [User.session_token a'; User.update_token a';
              User.session_token b'; User.update_token b']
    /\ (forall w',
          User.verify_session_token b' (VStr (User.session_token a')) w'
          = (Ok false, w')
          /\ User.verify_session_token a' (VStr (User.session_token b')) w'
             = (Ok false, w')
          /\ User.verify_session_token a' (VStr (User.update_token a')) w'
             = (Ok false, w'))
    /\ User.verify_update_token b' (VStr (User.update_token a')) = false
    /\ User.verify_update_token a' (VStr (User.update_token b')) = false
    /\ User.verify_update_token a' (VStr (User.session_token a')) = false.
Proof.
  do 4 eexists.
  split; [now apply renew_session_returns |].
  split; [now apply renew_session_returns |].
  rewrite !nth_token_set_clock.
  change (advance 128 w) with (advance (64 * 2) w).
  rewrite !nth_token_advance.
  change (0 + 2)%nat with 2%nat. change (1 + 2)%nat with 3%nat.
  cbn [User.session_token User.update_token User.set_session].
  split; [exact fresh |].
  clear first_in_range.
  generalize dependent (nth_token w 0). generalize dependent (nth_token w 1).
  generalize dependent (nth_token w 2). generalize dependent (nth_token w 3).
  intros t3 t2 t1 t0 fresh.
  apply NoDup_four_pairs in fresh as (D01 & D02 & D13).
  unfold User.verify_update_token.
  split; [intros w'; rewrite !verify_session_token_run |];
    rewrite !eq_str_decide;
    cbn [User.session_token User.update_token User.set_session];
    rewrite ?(bool_decide_eq_false_2 (t0 = t2)),
      ?(bool_decide_eq_false_2 (t2 = t0)),
      ?(bool_decide_eq_false_2 (t1 = t0)),
      ?(bool_decide_eq_false_2 (t0 = t1)),
      ?(bool_decide_eq_false_2 (t1 = t3)),
      ?(bool_decide_eq_false_2 (t3 = t1)) by congruence;
    repeat split.
Qed.

Lemma renewals_do_not_collide_witness :
  exists (a' : User.t) (w1 : World) (b' : User.t) (w2 : World),
    User.renew_session (alice, world0) = (Ok tt, (a', w1))
    /\ User.renew_session (bob, set_clock (noon + 5) w1) = (Ok tt, (b', w2))
    /\ NoDup [User.session_token a'; User.update_token a';
              User.session_token b'; User.update_token b']
    /\ (forall w',
          User.verify_session_token b' (VStr (User.session_token a')) w'
          = (Ok false, w')
          /\ User.verify_session_token a' (VStr (User.session_token b')) w'
             = (Ok false, w')
          /\ User.verify_session_token a' (VStr (User.update_token a')) w'
             = (Ok false, w'))
    /\ User.verify_update_token b' (VStr (User.update_token a')) = false
    /\ User.verify_update_token a' (VStr (User.update_token b')) = false
    /\ User.verify_update_token a' (VStr (User.session_token a')) = false.
Proof.
  apply (renewals_do_not_collide alice bob world0 (noon + 5)).
  - rewrite world0_tokens.
    apply (bool_decide_unpack _). vm_compute. exact I.
  - reflexivity.
  - reflexivity.
Defined.

(** ** The alphabet of tokens *)

Lemma hexdigit_is_hex n : 0 <= n < 16 -> is_hex_digit (hexdigit n) = true.
Proof.
  intros [Hlo Hhi]. destruct n as [|p|p]; [reflexivity | | lia].
  destruct p as [p|p|]; try reflexivity;
    destruct p as [p|p|]; try reflexivity;
    destruct p as [p|p|]; try reflexivity;
    destruct p as [p|p|]; try reflexivity; lia.
Qed.

Lemma Z_of_byte_range b : 0 <= Z_of_byte b < 256.
Proof. destruct b; vm_compute; split; congruence. Qed.

Lemma hex_alphabet bs : all_chars is_hex_digit (hex bs) = true.
Proof.
  induction bs as [|b bs IH]; [reflexivity |].
  pose proof (Z_of_byte_range b) as R.
  cbn [hex all_chars]. rewrite IH, !hexdigit_is_hex; [reflexivity | |].
  - apply Z.mod_pos_bound. lia.
  - split; [apply Z.div_pos; lia | apply Z.div_lt_upper_bound; lia].
Qed.

(** X9: whatever the entropy and the clock, every token that
    [renew_session] stores is made of the characters 0-9 and a-f only
    (forty of them), so it can stand in a URL, a header or a cookie
    without escaping: the session token after every call, returned or
    raised, and the update token after every call that returns. A call
    that raises leaves the update token as it was. *)
Theorem tokens_are_hexadecimal (u : User.t) (w : World) :
  exists (r : result unit) (u' : User.t) (w' : World),
    User.renew_session (u, w) = (r, (u', w'))
    /\ all_chars is_hex_digit (User.session_token u') = true
    /\ String.length (User.session_token u') = 40%nat
    /\ (r = Ok tt ->
        all_chars is_hex_digit (User.update_token u') = true
        /\ String.length (User.update_token u') = 40%nat)
    /\ (r <> Ok tt -> User.update_token u' = User.update_token u).
Proof.
  destruct (datetime_ok (clock w + timedelta_days 1)) eqn:Hok; do 3 eexists.
  - split; [now apply renew_session_returns |].
    cbn [User.session_token User.update_token User.set_session].
    unfold nth_token, token_at, Sha1.hexdigest.
    rewrite !hex_alphabet, !hex_length, digest_length.
    split; [reflexivity |]. split; [reflexivity |].
    split; [intros _; split; reflexivity |].
    intros Ne. now destruct Ne.
  - split; [now apply renew_session_overflows |].
    cbn [User.session_token User.update_token User.set_session].
    unfold nth_token, token_at, Sha1.hexdigest.
    rewrite !hex_alphabet, !hex_length, digest_length.
    split; [reflexivity |]. split; [reflexivity |].
    split; [discriminate | reflexivity].
Qed.

(** ** Further properties of password verification *)

Section Passwords.
Context `{Bcrypt}.

(** X10: [verify_password] answers true only in one situation: the
    candidate is a [str] that encodes to UTF-8, the stored digest is
    [bytes], and hashing the candidate's bytes under the stored digest
    gives the stored digest back. A candidate that is not a [str]
    raises [AttributeError] whatever is stored; a [str] that holds a
    surrogate raises [UnicodeEncodeError] whatever is stored; any
    other [str] against a digest that is not [bytes] raises
    [TypeError]. *)
Theorem verify_password_outcomes (u : User.t) (v : value) :
  (User.verify_password u v = Ok (VBool true) <->
   exists (p : string) (h : bytes),
     v = VStr p /\ utf8_valid (str_bytes p) = true
     /\ User.password_digest u = VBytes h
     /\ bcrypt_hash (str_bytes p) h = Some h)
  /\ (is_str v = false -> User.verify_password u v = Raise AttributeError)
  /\ (forall p : string,
        v = VStr p -> utf8_valid (str_bytes p) = false ->
        User.verify_password u v = Raise UnicodeEncodeError)
  /\ (forall p : string,
        v = VStr p -> utf8_valid (str_bytes p) = true ->
        is_bytes (User.password_digest u) = false ->
        User.verify_password u v = Raise TypeError).
Proof.
  unfold User.verify_password, mbind, result_bind.
  split; [| split; [| split]].
  - split.
    + destruct v; try discriminate. cbn [encode_utf8].
      destruct (utf8_valid (str_bytes s)) eqn:Hs; [| discriminate].
      cbn [bcrypt.checkpw].
      destruct (User.password_digest u) as [| | | | h | | |];
        try discriminate.
      destruct (bcrypt_hash (str_bytes s) h) as [h'|] eqn:E;
        [| discriminate].
      intros T. injection T as T. apply bool_decide_eq_true in T.
      subst h'. eauto 6.
    + intros (p & h & -> & Hp & Hd & Hh). cbn [encode_utf8].
      rewrite Hp. cbn [bcrypt.checkpw]. rewrite Hd, Hh.
      now rewrite bool_decide_eq_true_2.
  - destruct v; try discriminate; reflexivity.
  - intros p -> Hp. cbn [encode_utf8]. now rewrite Hp.
  - intros p -> Hp. cbn [encode_utf8]. rewrite Hp. cbn [bcrypt.checkpw].
    destruct (User.password_digest u); try discriminate; reflexivity.
Qed.
End Passwords.

Lemma verify_password_outcomes_witness :
  @User.verify_password toy_bcrypt alice (VBytes (str_bytes "hunter2"))
  = Raise AttributeError
  /\ @User.verify_password toy_bcrypt alice (VStr lone_surrogate)
     = Raise UnicodeEncodeError
  /\ @User.verify_password toy_bcrypt alice (VStr "hunter2") = Raise TypeError
  /\ @User.verify_password toy_bcrypt bob (VStr "") = Ok (VBool true).
Proof.
  destruct (@verify_password_outcomes toy_bcrypt alice
              (VBytes (str_bytes "hunter2"))) as (_ & A & _).
  destruct (@verify_password_outcomes toy_bcrypt alice (VStr lone_surrogate))
    as (_ & _ & S & _).
  destruct (@verify_password_outcomes toy_bcrypt alice (VStr "hunter2"))
    as (_ & _ & _ & T).
  destruct (@verify_password_outcomes toy_bcrypt bob (VStr ""))
    as ([_ B] & _).
  split; [apply A; reflexivity |].
  split; [apply (S lone_surrogate); reflexivity |].
  split; [apply (T "hunter2"); reflexivity |].
  apply B. exists "", (str_bytes "digest"). repeat split.
Defined.

(** ** Histories of operations *)

Section Histories.
Context `{Bcrypt}.

Lemma perform_world_renew u w :
  snd (perform RenewSession u w) = advance (renewal_reads (clock w)) w.
Proof.
  unfold perform, User.call, execute, mbind, User.Method_bind, renewal_reads.
  destruct (datetime_ok (clock w + timedelta_days 1)) eqn:Hok.
  - now rewrite renew_session_returns.
  - now rewrite renew_session_overflows.
Qed.

Lemma perform_world_other o u w :
  is_renew o = false -> snd (perform o u w) = w.
Proof.
  unfold perform, User.call, execute.
  destruct o; cbn [is_renew]; try discriminate; intros _; try reflexivity.
  - cbn [fst]. destruct (User.verify_password u password); reflexivity.
  - unfold User.in_world, mbind, M_bind. cbn [fst snd].
    now rewrite verify_session_token_run.
  - cbn [fst]. destruct (User.serialize u); reflexivity.
Qed.

Lemma set_session_twice st e ut st' e' ut' u :
  User.set_session st' e' ut' (User.set_session st e ut u)
  = User.set_session st' e' ut' u.
Proof. reflexivity. Qed.

Lemma set_session_same u :
  User.set_session (User.session_token u) (User.session_expiration u)
    (User.update_token u) u = u.
Proof. destruct u; reflexivity. Qed.

(** X11: whatever is called on a user, in whatever order and at
    whatever instants, the result is the same user with at most the
    three session columns changed: id, names, password digest, avatar
    URL, bookmarks and posts are never written. In particular both
    serializations of the user are what they were. *)
Theorem history_keeps_profile (history : list (datetime * op)) (u : User.t)
    (w : World) :
  (exists (st : string) (e : datetime) (ut : string),
      fst (run_ops history u w) = User.set_session st e ut u)
  /\ User.simple_serialize (fst (run_ops history u w))
     = User.simple_serialize u
  /\ User.serialize (fst (run_ops history u w)) = User.serialize u.
Proof.
  assert (exists st e ut,
             fst (run_ops history u w) = User.set_session st e ut u) as Shape.
  { revert u w. induction history as [|[t o] rest IH]; intros u w.
    - cbn. do 3 eexists. symmetry. apply set_session_same.
    - cbn [run_ops]. destruct (is_renew o) eqn:R.
      + destruct o; try discriminate. rewrite self_after_renew.
        destruct (datetime_ok (clock (set_clock t w) + timedelta_days 1));
          edestruct IH as (st & e & ut & ->);
          rewrite set_session_twice; eauto.
      + rewrite self_after_other by exact R. apply IH. }
  split; [exact Shape |].
  destruct Shape as (st & e & ut & ->). split; reflexivity.
Qed.

(** X12: a [renew_session] that returns draws exactly 128 bytes of
    entropy (two reads of 64), one that raises at line 63 has drawn
    the first 64 only, and no other operation draws any: after a
    history the tape has advanced by the sum of these over the
    renewals in it. *)
Theorem history_entropy (history : list (datetime * op)) (u : User.t)
    (w : World) :
  drawn (snd (run_ops history u w))
  = (entropy_read history + drawn w)%nat.
Proof.
  revert u w. induction history as [|[t o] rest IH]; intros u w.
  - reflexivity.
  - cbn [run_ops entropy_read]. rewrite IH. destruct (is_renew o) eqn:R.
    + destruct o; try discriminate. rewrite perform_world_renew.
      cbn [drawn advance set_clock clock]. lia.
    + rewrite perform_world_other by exact R.
      cbn [drawn set_clock]. lia.
Qed.

(** X13: a history without renewal is read-only: it returns the user
    exactly as it was, tokens and expiration included, whatever the
    verifications and serializations answered or raised. *)
Theorem queries_change_nothing (history : list (datetime * op)) (u : User.t)
    (w : World) :
  renewals history = 0%nat -> fst (run_ops history u w) = u.
Proof.
  revert u w. induction history as [|[t o] rest IH]; intros u w; [easy |].
  unfold renewals. cbn [filter list_filter snd run_ops].
  destruct (is_renew o) eqn:R.
  - rewrite decide_True by reflexivity. discriminate.
  - rewrite decide_False by discriminate. intros Z.
    rewrite self_after_other by exact R. now apply IH.
Qed.
End Histories.

Lemma queries_change_nothing_witness :
  fst (@run_ops toy_bcrypt
         [(noon, VerifyPassword (VStr "hunter2"));
          (noon + 5, VerifySessionToken (VStr "x"));
          (noon + 9, Serialize)] alice_with_post world0)
  = alice_with_post.
Proof. apply (@queries_change_nothing toy_bcrypt). reflexivity. Defined.

(** ** When serialization returns *)

Lemma as_list_returns_iff x :
  (exists v, Recipe.as_list x = Ok v) <-> list_or_str x = true.
Proof.
  destruct x; cbn; split; eauto; try discriminate;
    intros [v E]; discriminate E.
Qed.

Lemma as_list_errors x e :
  Recipe.as_list x = Raise e -> e = AttributeError \/ e = TypeError.
Proof. destruct x; cbn; intros E; inversion E; auto. Qed.

Lemma recipe_serialize_returns_iff r :
  (exists d, Recipe.serialize r = Ok d) <-> recipe_serializable r = true.
Proof.
  unfold recipe_serializable, Recipe.serialize, mbind, result_bind.
  rewrite andb_true_iff, <- !as_list_returns_iff.
  destruct (Recipe.as_list (Recipe.ingredients r)) as [a|];
    destruct (Recipe.as_list (Recipe.instructions r)) as [b|];
    (split; [intros [d E] | intros [[v1 E1] [v2 E2]]]);
    try discriminate; eauto.
Qed.

Lemma recipe_serialize_errors r e :
  Recipe.serialize r = Raise e -> e = AttributeError \/ e = TypeError.
Proof.
  unfold Recipe.serialize, mbind, result_bind.
  destruct (Recipe.as_list (Recipe.ingredients r)) eqn:Ei.
  - destruct (Recipe.as_list (Recipe.instructions r)) eqn:Es;
      [discriminate |].
    intros E. inversion E. subst. eapply as_list_errors, Es.
  - intros E. inversion E. subst. eapply as_list_errors, Ei.
Qed.

(** X14: [Recipe.serialize] returns exactly when ingredients and
    instructions are each a list or a [str]; anything else stored in
    either column ([None], a number, a dictionary, [bytes]) makes it
    raise, with [AttributeError] or [TypeError] and nothing else. What
    it returns always has the five keys id, title, summary,
    ingredients, instructions, and never depends on the image URL. *)
Theorem recipe_serialize_outcomes (r : Recipe.t) :
  ((exists d, Recipe.serialize r = Ok d) <-> recipe_serializable r = true)
  /\ (forall d, Recipe.serialize r = Ok d -> dict_keys d = Some recipe_keys)
  /\ (forall e, Recipe.serialize r = Raise e ->
      e = AttributeError \/ e = TypeError)
  /\ (forall url : value,
        Recipe.serialize
          (Recipe.mk (Recipe.id r) (Recipe.title r) (Recipe.summary r)
             (Recipe.ingredients r) (Recipe.instructions r) url)
        = Recipe.serialize r).
Proof.
  split; [apply recipe_serialize_returns_iff |].
  split; [apply recipe_serialize_keys |].
  split; [apply recipe_serialize_errors | reflexivity].
Qed.

Lemma comprehension_returns {A B : Type} (f : A -> result B) (l : list A) :
  (exists vs, comprehension f l = Ok vs)
  <-> Forall (fun x => exists v, f x = Ok v) l.
Proof.
  induction l as [|x l IH]; cbn.
  - split; [constructor | eauto].
  - unfold mbind, result_bind. rewrite Forall_cons, <- IH. split.
    + intros [vs E]. destruct (f x); [| discriminate].
      destruct (comprehension f l); [| discriminate]. eauto.
    + intros [[v ->] [vs ->]]. eauto.
Qed.

Lemma comprehension_length {A B : Type} (f : A -> result B) l vs :
  comprehension f l = Ok vs -> length vs = length l.
Proof.
  revert vs. induction l as [|x l IH]; cbn; intros vs E.
  - now inversion E.
  - unfold mbind, result_bind in E. destruct (f x); [| discriminate].
    destruct (comprehension f l); [| discriminate].
    inversion E. cbn. f_equal. now apply IH.
Qed.

Lemma comprehension_errors {A B : Type} (P : exn -> Prop)
    (f : A -> result B) l e :
  (forall x e', f x = Raise e' -> P e') ->
  comprehension f l = Raise e -> P e.
Proof.
  intros Hf. induction l as [|x l IH]; cbn; [discriminate |].
  unfold mbind, result_bind. destruct (f x) eqn:Ex.
  - destruct (comprehension f l); [discriminate |].
    intros E. inversion E. subst. now apply IH.
  - intros E. inversion E. subst. eapply Hf, Ex.
Qed.

Lemma bookmark_returns_iff saved :
  (exists v, SavedRecipe.recipe_serialize saved = Ok v)
  <-> bookmark_serializable saved = true.
Proof.
  unfold SavedRecipe.recipe_serialize, bookmark_serializable.
  destruct (SavedRecipe.recipe saved) as [r|].
  - apply recipe_serialize_returns_iff.
  - split; [intros [v E]; discriminate E | discriminate].
Qed.

Lemma bookmarks_return_iff l :
  (exists vs, comprehension SavedRecipe.recipe_serialize l = Ok vs)
  <-> forallb bookmark_serializable l = true.
Proof.
  rewrite comprehension_returns.
  induction l as [|x l IH]; cbn.
  - split; [reflexivity | constructor].
  - now rewrite Forall_cons, andb_true_iff, IH, bookmark_returns_iff.
Qed.

(** X15: [User.serialize] returns exactly for the users who have no
    post and whose every bookmark points to a recipe that serializes
    (a recipe is set, and its ingredients and instructions are lists
    or strings). What it returns lists one recipe per bookmark, and
    when it raises the exception is [AttributeError] or [TypeError]. *)
Theorem user_serialize_outcomes (u : User.t) :
  ((exists d, User.serialize u = Ok d) <-> user_serializable u = true)
  /\ (forall d, User.serialize u = Ok d ->
      exists recipes : list value,
        d = VDict [("id", User.id u);
                   ("first_name", User.first_name u);
                   ("last_name", User.last_name u);
                   ("username", User.username u);
                   ("posts", VList []);
                   ("saved_recipes", VList recipes)]
        /\ length recipes = length (User.saved_recipes u))
  /\ (forall e, User.serialize u = Raise e ->
      e = AttributeError \/ e = TypeError).
Proof.
  unfold user_serializable, User.serialize, mbind, result_bind.
  split; [| split].
  - rewrite andb_true_iff, <- bookmarks_return_iff.
    destruct (User.posts u) as [|p ps]; cbn.
    + destruct (comprehension SavedRecipe.recipe_serialize
                  (User.saved_recipes u));
        (split; [intros [d E] | intros [_ [vs E]]]); try discriminate; eauto.
    + split; [intros [d E] | intros [E _]]; discriminate.
  - intros d.
    destruct (comprehension Post.serialize (User.posts u)) as [ps|] eqn:Ep;
      [| discriminate].
    destruct (comprehension SavedRecipe.recipe_serialize
                (User.saved_recipes u)) as [rs|] eqn:Er; [| discriminate].
    intros E. inversion E. exists rs.
    apply posts_comprehension in Ep as [_ ->].
    split; [reflexivity | eapply comprehension_length, Er].
  - intros e.
    destruct (comprehension Post.serialize (User.posts u)) eqn:Ep.
    + destruct (comprehension SavedRecipe.recipe_serialize
                  (User.saved_recipes u)) eqn:Er; [discriminate |].
      intros E. inversion E. subst.
      eapply (comprehension_errors
                (fun e => e = AttributeError \/ e = TypeError)), Er.
      intros saved e'. unfold SavedRecipe.recipe_serialize.
      destruct (SavedRecipe.recipe saved) as [r|].
      * apply recipe_serialize_errors.
      * intros E'. inversion E'. auto.
    + intros E. inversion E. subst.
      eapply (comprehension_errors
                (fun e => e = AttributeError \/ e = TypeError)), Ep.
      intros p e' E'. inversion E'. auto.
Qed.

(** ** Lines of a stored string *)

Lemma has_char_cons sep c s :
  has_char sep (String c s) = false <->
  Ascii.eqb c sep = false /\ has_char sep s = false.
Proof. cbn [has_char]. apply orb_false_iff. Qed.

Lemma split_on_pieces sep s :
  length (split_on sep s) = S (count_char sep s)
  /\ Forall (fun piece => has_char sep piece = false) (split_on sep s).
Proof.
  induction s as [|c rest [IHlen IHall]]; cbn.
  - split; [reflexivity | repeat constructor].
  - destruct (Ascii.eqb c sep) eqn:Ec.
    + cbn. split; [now rewrite IHlen | now constructor].
    + destruct (split_on sep rest) as [|piece pieces];
        [discriminate IHlen |].
      split; [exact IHlen |].
      apply Forall_cons in IHall as [Hp Hps].
      constructor; [| exact Hps]. now apply has_char_cons.
Qed.

Lemma split_on_no_sep sep s : has_char sep s = false -> split_on sep s = [s].
Proof.
  induction s as [|c rest IH]; [reflexivity |].
  intros [Ec Hrest]%has_char_cons. cbn. now rewrite Ec, IH.
Qed.

Lemma split_on_first_piece sep piece rest :
  has_char sep piece = false ->
  split_on sep (String.append piece (String sep rest))
  = piece :: split_on sep rest.
Proof.
  induction piece as [|c piece IH].
  - intros _. change (split_on sep (String sep rest) = "" :: split_on sep rest).
    cbn [split_on]. now rewrite Ascii.eqb_refl.
  - intros [Ec Hp]%has_char_cons.
    change (split_on sep (String c (String.append piece (String sep rest)))
            = String c piece :: split_on sep rest).
    cbn [split_on]. now rewrite Ec, IH.
Qed.

Lemma split_join sep pieces :
  pieces <> [] ->
  Forall (fun piece => has_char sep piece = false) pieces ->
  split_on sep (join_on sep pieces) = pieces.
Proof.
  induction pieces as [|piece rest IH]; [congruence |].
  intros _ [Hp Hrest]%Forall_cons. destruct rest as [|next rest].
  - cbn. now apply split_on_no_sep.
  - change (join_on sep (piece :: next :: rest))
      with (String.append piece (String sep (join_on sep (next :: rest)))).
    rewrite split_on_first_piece by exact Hp.
    f_equal. now apply IH.
Qed.

(** X16: a string stored as ingredients or instructions is serialized
    as one item per line: one more item than the string has newline
    characters, none of which contains a newline. So the list is never
    empty (the empty string gives one empty item) and a trailing
    newline gives a last, empty item. *)
Theorem stored_string_lines (s : string) :
  exists pieces : list string,
    Recipe.as_list (VStr s) = Ok (VList (map VStr pieces))
    /\ length pieces = S (count_char newline s)
    /\ Forall (fun piece => has_char newline piece = false) pieces
    /\ pieces <> [].
Proof.
  exists (split_on newline s).
  destruct (split_on_pieces newline s) as [Hlen Hall].
  repeat split; try assumption.
  intros E. rewrite E in Hlen. discriminate Hlen.
Qed.

(** X17: a list of lines, none containing a newline, that is stored
    joined by newlines is serialized as that same list: storing
    ["\n".join(lines)] loses nothing, provided there is at least one
    line. *)
Theorem joined_lines_round_trip (lines : list string) :
  lines <> [] ->
  Forall (fun line => has_char newline line = false) lines ->
  Recipe.as_list (VStr (join_on newline lines)) = Ok (VList (map VStr lines)).
Proof. intros NE Hall. cbn. now rewrite split_join. Qed.

Lemma joined_lines_round_trip_witness :
  Recipe.as_list (VStr (join_on newline ["flour"; ""; "2 eggs"]))
  = Ok (VList [VStr "flour"; VStr ""; VStr "2 eggs"]).
Proof.
  apply (joined_lines_round_trip ["flour"; ""; "2 eggs"]).
  - discriminate.
  - repeat constructor.
Defined.

(** ** Creating recipes *)

Lemma kwargs_get_Some (kwargs : gmap string value) k v :
  kwargs !! k = Some v -> kwargs_get kwargs k = v.
Proof. intros E. unfold kwargs_get. now rewrite E. Qed.

Lemma kwargs_get_None (kwargs : gmap string value) k :
  kwargs !! k = None -> kwargs_get kwargs k = VNone.
Proof. intros E. unfold kwargs_get. now rewrite E. Qed.

(** X18: a recipe created with list ingredients and list instructions
    serializes at once, to a dictionary holding those very lists, the
    title and summary of the request ([None] for one that is missing)
    and the id [None], since no row exists yet. *)
Theorem recipe_create_then_serialize (kwargs : gmap string value)
    (xs ys : list value) :
  kwargs !! "ingredients" = Some (VList xs) ->
  kwargs !! "instructions" = Some (VList ys) ->
  Recipe.serialize (Recipe.__init__ kwargs)
  = Ok (VDict [("id", VNone);
               ("title", kwargs_get kwargs "title");
               ("summary", kwargs_get kwargs "summary");
               ("ingredients", VList xs);
               ("instructions", VList ys)]).
Proof.
  intros Hi Hs. unfold Recipe.serialize, Recipe.__init__.
  cbn [Recipe.ingredients Recipe.instructions Recipe.id Recipe.title
       Recipe.summary Recipe.blank].
  rewrite (kwargs_get_Some _ _ _ Hi), (kwargs_get_Some _ _ _ Hs).
  reflexivity.
Qed.

Lemma recipe_create_then_serialize_witness :
  Recipe.serialize (Recipe.__init__ pancake_kwargs)
  = Ok (VDict [("id", VNone);
               ("title", VStr "Pancakes");
               ("summary", VStr "Quick");
               ("ingredients", VList [VStr "flour"; VStr "milk"]);
               ("instructions", VList [VStr "mix"; VStr "fry"])]).
Proof.
  apply (recipe_create_then_serialize pancake_kwargs
           [VStr "flour"; VStr "milk"] [VStr "mix"; VStr "fry"]);
    reflexivity.
Defined.

(** X19: [Recipe.__init__] validates nothing, and a recipe created
    without ingredients cannot be serialized: the column holds [None],
    and [serialize] raises [AttributeError]. The same happens when
    the ingredients are a list or a string and the instructions are
    missing. *)
Theorem recipe_create_incomplete (kwargs : gmap string value) :
  kwargs !! "ingredients" = None
  \/ (list_or_str (kwargs_get kwargs "ingredients") = true
      /\ kwargs !! "instructions" = None) ->
  Recipe.serialize (Recipe.__init__ kwargs) = Raise AttributeError.
Proof.
  unfold Recipe.serialize, Recipe.__init__.
  cbn [Recipe.ingredients Recipe.instructions].
  intros [Hi | [Hi Hs]].
  - now rewrite (kwargs_get_None _ _ Hi).
  - apply as_list_returns_iff in Hi as [v ->].
    now rewrite (kwargs_get_None _ _ Hs).
Qed.

Lemma recipe_create_incomplete_witness :
  Recipe.serialize (Recipe.__init__ untitled_kwargs) = Raise AttributeError.
Proof. apply recipe_create_incomplete. left. reflexivity. Defined.

(** X20: [Recipe.__init__] reads the keys title, summary, ingredients
    and instructions and no other: whatever else a request carries (an
    id, an image URL) is dropped, and the new recipe has neither id nor
    image URL. *)
Theorem recipe_create_ignores_other_keys (kwargs : gmap string value)
    (k : string) (x : value) :
  k ∉ ["title"; "summary"; "ingredients"; "instructions"] ->
  Recipe.__init__ (<[k := x]> kwargs) = Recipe.__init__ kwargs
  /\ Recipe.id (Recipe.__init__ (<[k := x]> kwargs)) = VNone
  /\ Recipe.image_url (Recipe.__init__ (<[k := x]> kwargs)) = VNone.
Proof.
  intros Hk. rewrite !not_elem_of_cons in Hk.
  destruct Hk as (K1 & K2 & K3 & K4 & _).
  unfold Recipe.__init__, kwargs_get.
  rewrite !lookup_insert_ne by congruence. repeat split.
Qed.

Lemma recipe_create_ignores_other_keys_witness :
  Recipe.__init__ (<["image_url" := VStr "http://img/p.png"]> untitled_kwargs)
  = Recipe.__init__ untitled_kwargs.
Proof.
  apply (recipe_create_ignores_other_keys untitled_kwargs "image_url").
  rewrite !not_elem_of_cons. repeat split; try discriminate.
  apply not_elem_of_nil.
Defined.

Lemma recipe_create_then_serialize_shape (i t s : value) (xs ys : list value) :
  Recipe.serialize
    (Recipe.__init__
       (list_to_map [("id", i); ("title", t); ("summary", s);
                     ("ingredients", VList xs); ("instructions", VList ys)]))
  = Ok (VDict [("id", VNone); ("title", t); ("summary", s);
               ("ingredients", VList xs); ("instructions", VList ys)]).
Proof.
  unfold Recipe.serialize, Recipe.__init__, kwargs_get.
  cbn [Recipe.ingredients Recipe.instructions Recipe.id Recipe.title
       Recipe.summary Recipe.blank list_to_map foldr uncurry fst snd].
  repeat (rewrite lookup_insert_eq || rewrite lookup_insert_ne by discriminate).
  reflexivity.
Qed.

(** X21: what [Recipe.serialize] returns can be sent back as a creation
    request: the recipe created from the serialized dictionary
    serializes to the same dictionary, with the id reset to [None].
    Strings have become lists on the first pass and stay lists. *)
Theorem recipe_serialize_create_round_trip (r : Recipe.t)
    (d : list (string * value)) :
  Recipe.serialize r = Ok (VDict d) ->
  exists rest : list (string * value),
    d = ("id", Recipe.id r) :: rest
    /\ Recipe.serialize (Recipe.__init__ (list_to_map d))
       = Ok (VDict (("id", VNone) :: rest)).
Proof.
  unfold Recipe.serialize at 1. unfold mbind, result_bind.
  destruct (Recipe.as_list (Recipe.ingredients r)) as [a|] eqn:Ea;
    [| discriminate].
  destruct (Recipe.as_list (Recipe.instructions r)) as [b|] eqn:Eb;
    [| discriminate].
  apply as_list_is_list in Ea as [xs ->].
  apply as_list_is_list in Eb as [ys ->].
  intros E. inversion E. subst d. eexists. split; [reflexivity |].
  apply recipe_create_then_serialize_shape.
Qed.

Lemma recipe_serialize_create_round_trip_witness :
  exists rest : list (string * value),
    Recipe.serialize pancakes = Ok (VDict (("id", VInt 7) :: rest))
    /\ Recipe.serialize
         (Recipe.__init__ (list_to_map (("id", VInt 7) :: rest)))
       = Ok (VDict (("id", VNone) :: rest)).
Proof.
  destruct (recipe_serialize_create_round_trip pancakes _ eq_refl)
    as (rest & Hd & Hagain).
  exists rest. injection Hd as <-. split; [reflexivity | exact Hagain].
Defined.
